(** * Data Cloud query service: a shallow embedding and its properties

    This development embeds the query-building, escaping and execution
    core of the Data Cloud inspector service:

    - [src/lib/sql/queries.js]: the query objects [userEngagementQuery]
      and [unifiedB2BQuery] ([escapeSqlString], [buildQuery],
      [transform]), together with the second copy of the query module
      that builds its WHERE clause without escaping;
    - [src/lib/data-cloud-query-service.js]: the class
      [DataCloudQueryService] ([getDataCloudContext], [executeQuery],
      [executeRawQuery], [cleanFilters], [executeQueryWithFilters]).

    JavaScript values are an inductive type, filter objects live in a
    heap of mutable objects addressed by references, each with its own
    properties and its prototype, and the methods of the service are
    computations in a state-and-exception monad whose exceptions are
    the rejections of the async methods. *)

From Stdlib Require Import ZArith Ascii String DecimalString.
From stdpp Require Import base option list strings gmap fin_maps.

Set Warnings "-register-all".
Local Open Scope string_scope.

(** ** JavaScript values *)

(** Numbers are the integer-valued ones, strings are sequences of
    8-bit characters; objects that are used as data (result records)
    are property lists in insertion order. *)
Inductive value : Type :=
| VUndefined
| VNull
| VBool (b : bool)
| VNum (n : Z)
| VStr (s : string)
| VArr (elems : list value)
| VObj (props : list (string * value)).

(** [if (v)]: the falsy values are [undefined], [null], [false], [0]
    and the empty string; arrays and objects are always truthy. *)
Definition truthy (v : value) : bool :=
  match v with
  | VUndefined | VNull => false
  | VBool b => b
  | VNum n => negb (n =? 0)%Z
  | VStr s => negb (String.eqb s "")
  | VArr _ | VObj _ => true
  end.

(** [typeof v === 'string'] *)
Definition is_string (v : value) : bool :=
  match v with VStr _ => true | _ => false end.

Definition numberToString (n : Z) : string :=
  NilZero.string_of_int (Z.to_int n).

(** [Array.prototype.join]: elements separated by [sep]. *)
Fixpoint join (sep : string) (parts : list string) : string :=
  match parts with
  | [] => ""
  | [p] => p
  | p :: rest => p +:+ sep +:+ join sep rest
  end.

(** [Array.prototype.push] *)
Definition push {A} (arr : list A) (x : A) : list A := (arr ++ [x])%list.

(** [String(v)], which is also the coercion of a template literal.
    An array prints its elements separated by commas, with [null] and
    [undefined] elements printed as the empty string. *)
Fixpoint toString (v : value) : string :=
  match v with
  | VUndefined => "undefined"
  | VNull => "null"
  | VBool true => "true"
  | VBool false => "false"
  | VNum n => numberToString n
  | VStr s => s
  | VArr elems =>
      join ","
        ((fix items (l : list value) : list string :=
            match l with
            | [] => []
            | VUndefined :: rest => "" :: items rest
            | VNull :: rest => "" :: items rest
            | x :: rest => toString x :: items rest
            end) elems)
  | VObj _ => "[object Object]"
  end.

(** [s.replace(/c/g, r)] for a pattern that is one character: every
    occurrence of [c] becomes [r], everything else is kept. *)
Fixpoint replaceAll (c : ascii) (r : string) (s : string) : string :=
  match s with
  | EmptyString => EmptyString
  | String a rest =>
      if Ascii.eqb a c then r +:+ replaceAll c r rest
      else String a (replaceAll c r rest)
  end.

Definition chr (n : nat) : ascii := ascii_of_nat n.

Definition quote : ascii := chr 39.
Definition backslash : ascii := chr 92.
Definition nul : ascii := chr 0.
Definition lf : ascii := chr 10.
Definition cr : ascii := chr 13.
Definition sub : ascii := chr 26.

Definition str1 (c : ascii) : string := String c EmptyString.

(** ** Exceptions and completions *)

(** A thrown [Error]; only its [message] is ever read. *)
Record exn : Type := Error { message : string }.

(** The outcome of evaluating code that may throw. *)
Inductive completion (A : Type) : Type :=
| Normal (a : A)
| Throw (e : exn).
Arguments Normal {A} a.
Arguments Throw {A} e.

(** ** Filter objects *)

(** The properties of a filter object: property names mapped to
    values.  A property can be present with the value [undefined].
    All properties are data properties with string names: filter
    objects are the plain objects a parser or an object literal
    makes, without accessors. *)
Abbreviation Filters := (gmap string value).

(** [o.k], in the properties a read of the object finds: a missing
    property reads as [undefined]. *)
Definition prop (o : Filters) (k : string) : value :=
  default VUndefined (o !! k).

(** Code that may throw is sequenced with the usual bind. *)
#[global] Instance completion_ret : MRet completion := @Normal.
#[global] Instance completion_bind : MBind completion :=
  fun A B f m => match m with Normal a => f a | Throw e => Throw e end.

(** [v[i]] for a numeric index.  Reading a property of [undefined] or
    [null] throws a [TypeError]; an index that is out of range, or a
    value without indexed properties, reads as [undefined]. *)
Definition index (v : value) (i : nat) : completion value :=
  let key := numberToString (Z.of_nat i) in
  match v with
  | VUndefined =>
      Throw (Error ("Cannot read properties of undefined (reading '" +:+ key +:+ "')"))
  | VNull =>
      Throw (Error ("Cannot read properties of null (reading '" +:+ key +:+ "')"))
  | VArr elems => Normal (default VUndefined (elems !! i))
  | VStr s =>
      Normal (match String.get i s with
              | Some c => VStr (str1 c)
              | None => VUndefined
              end)
  | VObj props =>
      Normal (default VUndefined
                (snd <$> List.find (fun kv => String.eqb (fst kv) key) props))
  | VBool _ | VNum _ => Normal VUndefined
  end.

(** ** The query objects of [src/lib/sql/queries.js] *)

Module userEngagementQuery.

Definition sql : string :=
  "SELECT 
    ClientSession__c, 
    CreatedDate__c, 
    EntityType__c, 
    EventIdentifier__c, 
    EventName__c
  FROM UserEngagement__dlm 
  LIMIT 100".

(** The body of the arrow function given to [records.map]. *)
Definition transformRecord (record : value) : completion value :=
  r0 ← index record 0;
  r1 ← index record 1;
  r2 ← index record 2;
  r3 ← index record 3;
  r4 ← index record 4;
  mret (VObj [("clientSession", r0); ("createdDate", r1);
              ("entityType", r2); ("eventIdentifier", r3);
              ("eventName", r4)]).

Definition transform (records : list value) : completion (list value) :=
  mapM transformRecord records.

End userEngagementQuery.

Module unifiedB2BQuery.

Definition baseSql : string :=
  "SELECT ssot__Name__c, ssot__Number__c, ssot__AccountSource__c, ssot__AccountTypeId__c, ssot__CreatedDate__c, ssot__LastModifiedDate__c, ssot__ParentAccountId__c, ssot__Id__c FROM UnifiedssotAccountB2b__dlm".

(** A value that is not a string is returned as [String(value)]
    at once; a string goes through the six replacements. *)
Definition escapeSqlString (v : value) : string :=
  match v with
  | VStr s =>
      replaceAll sub (String backslash "Z")
        (replaceAll cr (String backslash "r")
           (replaceAll lf (String backslash "n")
              (replaceAll nul ""
                 (replaceAll backslash (String backslash (str1 backslash))
                    (replaceAll quote (String quote (str1 quote)) s)))))
  | _ => toString v
  end.

(** [buildQuery(filters = {})]: [None] is the call without an
    argument.  The conditions are pushed one after the other. *)
Definition buildQuery (arg : option Filters) : string :=
  let filters := default (∅ : Filters) arg in
  let whereConditions : list string := [] in
  let whereConditions :=
    if truthy (prop filters "accountName")
    then push whereConditions
           ("ssot__Name__c LIKE '%"
              +:+ escapeSqlString (prop filters "accountName") +:+ "%'")
    else whereConditions in
  let whereConditions :=
    if truthy (prop filters "accountSource")
    then push whereConditions
           ("ssot__AccountSource__c = '"
              +:+ escapeSqlString (prop filters "accountSource") +:+ "'")
    else whereConditions in
  let whereConditions :=
    if truthy (prop filters "segment")
    then push whereConditions
           ("ssot__AccountTypeId__c = '"
              +:+ escapeSqlString (prop filters "segment") +:+ "'")
    else whereConditions in
  let query := baseSql in
  let query :=
    if (0 <? length whereConditions)%nat
    then query +:+ " WHERE " +:+ join " AND " whereConditions
    else query in
  query +:+ " LIMIT 100".

Definition transformRecord (record : value) : completion value :=
  r0 ← index record 0;
  r1 ← index record 1;
  r2 ← index record 2;
  r3 ← index record 3;
  r4 ← index record 4;
  r5 ← index record 5;
  r6 ← index record 6;
  r7 ← index record 7;
  mret (VObj [("name", r0); ("number", r1); ("accountSource", r2);
              ("accountTypeId", r3); ("createdDate", r4);
              ("lastModifiedDate", r5); ("parentAccountId", r6);
              ("id", r7)]).

Definition transform (records : list value) : completion (list value) :=
  mapM transformRecord records.

End unifiedB2BQuery.

(** The second copy of the query module in the repository.  Its
  [buildQuery] has no [escapeSqlString]: the filter values are put
  into the template literals as they are. *)
Module SecondCopy.
Module unifiedB2BQuery.

Definition baseSql : string := unifiedB2BQuery.baseSql.

Definition buildQuery (arg : option Filters) : string :=
  let filters := default (∅ : Filters) arg in
  let whereConditions : list string := [] in
  let whereConditions :=
    if truthy (prop filters "accountName")
    then push whereConditions
           ("ssot__Name__c LIKE '%"
              +:+ toString (prop filters "accountName") +:+ "%'")
    else whereConditions in
  let whereConditions :=
    if truthy (prop filters "accountSource")
    then push whereConditions
           ("ssot__AccountSource__c = '"
              +:+ toString (prop filters "accountSource") +:+ "'")
    else whereConditions in
  let whereConditions :=
    if truthy (prop filters "segment")
    then push whereConditions
           ("ssot__AccountTypeId__c = '"
              +:+ toString (prop filters "segment") +:+ "'")
    else whereConditions in
  let query := baseSql in
  let query :=
    if (0 <? length whereConditions)%nat
    then query +:+ " WHERE " +:+ join " AND " whereConditions
    else query in
  query +:+ " LIMIT 100".

Definition transform (records : list value) : completion (list value) :=
  unifiedB2BQuery.transform records.

End unifiedB2BQuery.
End SecondCopy.

(** ** The service of [src/lib/data-cloud-query-service.js] *)

(** *** External collaborators *)

(** What [dataCloudApi.query] resolves to: [data] can be absent. *)
Record Response : Type := { data : option (list value) }.

(** The authorized context; [dataCloudApi.query(sql)] resolves to a
    response or rejects. *)
Record Context : Type :=
  { dataCloudApi_query : string -> completion Response }.

(** [appLinkSdk.applink.getAuthorization(name)]: the outcome of its
    n-th invocation (counted from 0) for a connection name. *)
Definition AppLinkSdk : Type := string -> nat -> completion Context.

(** *** Query objects *)

(** [buildQuery] is [Some] when [typeof queryObject.buildQuery] is
    ['function']; [sql] is [None] when the property is missing. *)
Record QueryObject : Type := {
  buildQuery : option (option Filters -> completion string);
  sql : option string;
  transform : list value -> completion (list value)
}.

Definition userEngagementQueryObject : QueryObject :=
  {| buildQuery := None;
     sql := Some userEngagementQuery.sql;
     transform := userEngagementQuery.transform |}.

Definition unifiedB2BQueryObject : QueryObject :=
  {| buildQuery := Some (fun arg => Normal (unifiedB2BQuery.buildQuery arg));
     sql := None;
     transform := unifiedB2BQuery.transform |}.

(** *** The mutable world *)

(** References to filter objects. *)
Definition loc : Type := nat.

Inductive level : Type := Info | Err.

(** The prototype of an object of the heap: [Object.prototype], as
    for an object literal; [null]; or an object or array that came as
    a value.  Values are data, as JSON or a query string gives them:
    an object that is a value has the prototype [Object.prototype],
    an array [Array.prototype]. *)
Inductive Prototype : Type :=
| ObjectPrototype
| NullPrototype
| ValuePrototype (v : value).

(** The state a method call can read and change: the cached context
    of the instance, the number of authorizations requested so far,
    the lines given to the logger, the heap of filter objects, by
    their own properties, the prototypes of these objects, and the
    reading of the clock.  An object without an entry in [prototypes]
    has the prototype [Object.prototype]. *)
Record World : Type := {
  _dataCloudContext : option Context;
  authorizations : nat;
  logged : list (level * string);
  heap : gmap loc Filters;
  prototypes : gmap loc Prototype;
  now : string
}.

Definition set_dataCloudContext (c : option Context) (w : World) : World :=
  {| _dataCloudContext := c; authorizations := authorizations w;
     logged := logged w; heap := heap w; prototypes := prototypes w;
     now := now w |}.

Definition set_authorizations (n : nat) (w : World) : World :=
  {| _dataCloudContext := _dataCloudContext w; authorizations := n;
     logged := logged w; heap := heap w; prototypes := prototypes w;
     now := now w |}.

Definition set_logged (l : list (level * string)) (w : World) : World :=
  {| _dataCloudContext := _dataCloudContext w;
     authorizations := authorizations w;
     logged := l; heap := heap w; prototypes := prototypes w;
     now := now w |}.

Definition set_heap (h : gmap loc Filters) (w : World) : World :=
  {| _dataCloudContext := _dataCloudContext w;
     authorizations := authorizations w;
     logged := logged w; heap := h; prototypes := prototypes w;
     now := now w |}.

Definition set_prototypes (p : gmap loc Prototype) (w : World) : World :=
  {| _dataCloudContext := _dataCloudContext w;
     authorizations := authorizations w;
     logged := logged w; heap := heap w; prototypes := p;
     now := now w |}.

(** The world of [new DataCloudQueryService(...)], with the objects
    of the caller, all with the prototype [Object.prototype]. *)
Definition newService (h : gmap loc Filters) (t : string) : World :=
  {| _dataCloudContext := None; authorizations := 0;
     logged := []; heap := h; prototypes := ∅; now := t |}.

(** *** Objects: own properties, prototype, reading and writing *)

Definition prototypeOf (w : World) (l : loc) : Prototype :=
  default ObjectPrototype (prototypes w !! l).

(** The own properties of an array: its elements at their indices,
    and [length]. *)
Definition arrayProperties (elems : list value) : Filters :=
  <["length" := VNum (Z.of_nat (length elems))]>
    (list_to_map
       (imap (fun i x => (numberToString (Z.of_nat i), x)) elems)).

(** What an object inherits as values: the own properties of its
    prototype.  The properties of [Object.prototype] and
    [Array.prototype] themselves are functions and the accessor
    [__proto__], which are no values; the accessor is part of
    [assign] below. *)
Definition inherited (p : Prototype) : Filters :=
  match p with
  | ValuePrototype (VObj props) => list_to_map props
  | ValuePrototype (VArr elems) => arrayProperties elems
  | _ => ∅
  end.

(** The properties a read [o.k] of the object at [l] finds: its own
    ones, and behind them the inherited ones. *)
Definition visibleAt (w : World) (l : loc) : Filters :=
  heap w !!! l ∪ inherited (prototypeOf w l).

(** [typeof v === 'object' && v !== null] *)
Definition isObject (v : value) : bool :=
  match v with
  | VArr _ | VObj _ => true
  | _ => false
  end.

(** An assignment to [__proto__] reaches the setter of
    [Object.prototype] when the object has no own property of that
    name, inherits none as data, and has [Object.prototype] in its
    prototype chain. *)
Definition reachesProtoSetter (own : Filters) (proto : Prototype) : bool :=
  match own !! "__proto__" with
  | Some _ => false
  | None =>
      match proto with
      | ObjectPrototype => true
      | NullPrototype => false
      | ValuePrototype _ =>
          match inherited proto !! "__proto__" with
          | Some _ => false
          | None => true
          end
      end
  end.

(** [obj[key] = v] on an object with the own properties [own] and the
    prototype [proto].  The setter of [__proto__] makes an object or
    array, or [null], the prototype of the object, ignores every other
    value, and creates no property.  Every other assignment creates
    or overwrites an own property. *)
Definition assign (own : Filters) (proto : Prototype) (key : string)
    (v : value) : Filters * Prototype :=
  if String.eqb key "__proto__" && reachesProtoSetter own proto
  then (own,
        match v with
        | VArr _ | VObj _ => ValuePrototype v
        | VNull => NullPrototype
        | _ => proto
        end)
  else (<[key := v]> own, proto).

(** *** Computations: state and exceptions *)

(** A method body: from a world to a completion and the world it
    leaves.  [Throw] is a thrown exception, and for an async method
    the rejection of its promise. *)
Definition M (A : Type) : Type := World -> completion A * World.

#[global] Instance M_ret : MRet M := fun A a w => (Normal a, w).
#[global] Instance M_bind : MBind M :=
  fun A B f m w =>
    match m w with
    | (Normal a, w') => f a w'
    | (Throw e, w') => (Throw e, w')
    end.

Definition throw {A} (e : exn) : M A := fun w => (Throw e, w).

(** A pure computation that may throw. *)
Definition lift {A} (c : completion A) : M A := fun w => (c, w).

(** [try { body } catch (err) { handler }] *)
Definition try_catch {A} (body : M A) (handler : exn -> M A) : M A :=
  fun w =>
    match body w with
    | (Normal a, w') => (Normal a, w')
    | (Throw e, w') => handler e w'
    end.

Definition read {A} (f : World -> A) : M A := fun w => (Normal (f w), w).
Definition update (f : World -> World) : M unit := fun w => (Normal tt, f w).

(** [for (const x of xs) body] *)
Fixpoint forEach {A} (xs : list A) (body : A -> M unit) : M unit :=
  match xs with
  | [] => mret tt
  | x :: rest => body x ;; forEach rest body
  end.

(** [logger.info(msg)] and [logger.error(msg)] *)
Definition logger_info (msg : string) : M unit :=
  update (fun w => set_logged (push (logged w) (Info, msg)) w).
Definition logger_error (msg : string) : M unit :=
  update (fun w => set_logged (push (logged w) (Err, msg)) w).

(** An object literal: a new object at a reference not in use, with
    the prototype [Object.prototype]. *)
Definition newObject (o : Filters) : M loc :=
  fun w =>
    let l := fresh (dom (heap w)) in
    (Normal l,
     set_prototypes (<[l := ObjectPrototype]> (prototypes w))
       (set_heap (<[l := o]> (heap w)) w)).

(** The own properties of the object at [l]. *)
Definition deref (l : loc) : M Filters :=
  read (fun w => heap w !!! l).

(** The object at [l] as a callee reads it: the properties that
    [o.k] finds. *)
Definition visible (l : loc) : M Filters :=
  read (fun w => visibleAt w l).

(** [Object.entries(l)]: the own properties. *)
Definition Object_entries (l : loc) : M (list (string * value)) :=
  o ← deref l; mret (map_to_list o).

(** [l[key] = v] *)
Definition setProp (l : loc) (key : string) (v : value) : M unit :=
  update (fun w =>
            let obj := assign (heap w !!! l) (prototypeOf w l) key v in
            set_prototypes (<[l := obj.2]> (prototypes w))
              (set_heap (<[l := obj.1]> (heap w)) w)).

(** A parameter with the default [{}]: the argument is an object, or
    it is left out and a new empty object is bound.  A [null]
    argument, which the default does not replace, is not an argument
    of this model. *)
Definition orEmptyObject (arg : option loc) : M loc :=
  match arg with
  | Some l => mret l
  | None => newObject ∅
  end.

(** [new Date().toISOString()] *)
Definition Date_toISOString : M string := read now.

(** *** Response envelopes *)

(** [filters] is [None] where the envelope has no such key. *)
Record Metadata : Type := {
  totalRecords : nat;
  query : string;
  filters : option loc;
  executedAt : string
}.

(** [Success] is [{success: true, records, metadata}]; [Failure] is
    [{success: false, error, message, query, filters}], whose [query]
    is [None] when it is [undefined]. *)
Inductive Envelope : Type :=
| Success (records : list value) (metadata : Metadata)
| Failure (error : string) (msg : string) (failedQuery : option string)
          (failedFilters : option loc).

(** [value !== undefined && value !== null && value !== ''] *)
Definition is_undefined (v : value) : bool :=
  match v with VUndefined => true | _ => false end.
Definition is_null (v : value) : bool :=
  match v with VNull => true | _ => false end.
Definition is_empty_string (v : value) : bool :=
  match v with VStr s => String.eqb s "" | _ => false end.
Definition present (v : value) : bool :=
  negb (is_undefined v) && negb (is_null v) && negb (is_empty_string v).

(** The error of a query object without a usable [sql] or
    [buildQuery]. *)
Definition missingQueryError : exn :=
  Error "Query object must have either sql property or buildQuery method".

(** *** The class [DataCloudQueryService] *)

Module DataCloudQueryService.
Section Instance.

(** The fields the constructor stores and never changes. *)
Variable appLinkSdk : AppLinkSdk.
Variable dcConnectionName : string.

(** [await this.appLinkSdk.applink.getAuthorization(name)] *)
Definition getAuthorization (name : string) : M Context :=
  fun w =>
    (appLinkSdk name (authorizations w),
     set_authorizations (S (authorizations w)) w).

Definition getDataCloudContext : M (option Context) :=
  cached ← read _dataCloudContext;
  match cached with
  | None =>
      logger_info ("Getting Data Cloud connection for '"
                     +:+ dcConnectionName +:+ "'...") ;;
      ctx ← getAuthorization dcConnectionName;
      update (set_dataCloudContext (Some ctx))
  | Some _ => mret tt
  end ;;
  read _dataCloudContext.

(** [dataCloudContext.dataCloudApi.query(q)]; on [null] the property
    access throws. *)
Definition dataCloudApi_query_of (c : option Context) (q : string)
  : M Response :=
  match c with
  | Some ctx => lift (dataCloudApi_query ctx q)
  | None =>
      throw (Error "Cannot read properties of null (reading 'dataCloudApi')")
  end.

(** The inner [try]/[catch] of the handler of [executeQuery]. *)
Definition fallbackQueryOf (queryObject : QueryObject) : M (option string) :=
  try_catch
    (match buildQuery queryObject with
     | Some f => q ← lift (f None); mret (Some q)
     | None =>
         match sql queryObject with
         | Some s => if truthy (VStr s) then mret (Some s) else mret None
         | None => mret None
         end
     end)
    (fun buildErr => mret (Some "Query build failed")).

Definition executeQuery (queryObject : QueryObject) (arg : option loc)
  : M Envelope :=
  filters ← orEmptyObject arg;
  try_catch
    (dataCloudContext ← getDataCloudContext;
     query ←
       match buildQuery queryObject with
       | Some f => o ← visible filters; lift (f (Some o))
       | None =>
           match sql queryObject with
           | Some s =>
               if truthy (VStr s) then mret s else throw missingQueryError
           | None => throw missingQueryError
           end
       end;
     logger_info ("Executing Data Cloud query: " +:+ query) ;;
     response ← dataCloudApi_query_of dataCloudContext query;
     transformedRecords ←
       lift (transform queryObject (default [] (data response)));
     executedAt ← Date_toISOString;
     mret (Success transformedRecords
             {| totalRecords := length transformedRecords;
                query := query;
                filters := Some filters;
                executedAt := executedAt |}))
    (fun err =>
       logger_error ("Error executing Data Cloud query: " +:+ message err) ;;
       fallbackQuery ← fallbackQueryOf queryObject;
       mret (Failure "Failed to execute Data Cloud query" (message err)
               fallbackQuery (Some filters))).

Definition executeRawQuery (sql : string)
    (transformFn : option (list value -> completion (list value)))
  : M Envelope :=
  try_catch
    (dataCloudContext ← getDataCloudContext;
     logger_info ("Executing raw Data Cloud query: " +:+ sql) ;;
     response ← dataCloudApi_query_of dataCloudContext sql;
     records ←
       match transformFn with
       | Some f => lift (f (default [] (data response)))
       | None => mret (default [] (data response))
       end;
     executedAt ← Date_toISOString;
     mret (Success records
             {| totalRecords := length records;
                query := sql;
                filters := None;
                executedAt := executedAt |}))
    (fun err =>
       logger_error ("Error executing raw Data Cloud query: " +:+ message err) ;;
       mret (Failure "Failed to execute raw Data Cloud query" (message err)
               (Some sql) None)).

Definition cleanFilters (filters : loc) : M loc :=
  cleanedFilters ← newObject ∅;
  entries ← Object_entries filters;
  forEach entries
    (fun '(key, value) =>
       if present value then setProp cleanedFilters key value
       else mret tt) ;;
  mret cleanedFilters.

Definition executeQueryWithFilters (queryObject : QueryObject)
    (arg : option loc) : M Envelope :=
  rawFilters ← orEmptyObject arg;
  cleanedFilters ← cleanFilters rawFilters;
  executeQuery queryObject (Some cleanedFilters).

End Instance.
End DataCloudQueryService.

Import DataCloudQueryService.

(** ** Reference formulations *)

(** *** Escaping *)

(** The six replacements of [escapeSqlString], in their order. *)
Definition sixReplacements (s : string) : string :=
  replaceAll sub (String backslash "Z")
    (replaceAll cr (String backslash "r")
       (replaceAll lf (String backslash "n")
          (replaceAll nul ""
             (replaceAll backslash (String backslash (str1 backslash))
                (replaceAll quote (String quote (str1 quote)) s))))).

(** Escaping as the specification words it: the input is coerced to
    its string representation, then the six replacements are applied. *)
Definition escapeAsSpecified (v : value) : string :=
  sixReplacements (toString v).

(** The characters the six replacements look for. *)
Definition special (c : ascii) : bool :=
  Ascii.eqb c quote || Ascii.eqb c backslash || Ascii.eqb c nul
  || Ascii.eqb c lf || Ascii.eqb c cr || Ascii.eqb c sub.

(** A string without any of them. *)
Fixpoint plain (s : string) : bool :=
  match s with
  | EmptyString => true
  | String a rest => negb (special a) && plain rest
  end.

(** The character [c] occurs in [s]. *)
Fixpoint occurs (c : ascii) (s : string) : bool :=
  match s with
  | EmptyString => false
  | String a rest => Ascii.eqb a c || occurs c rest
  end.

(** The values whose string representation is built from no other
    value: everything but arrays and objects. *)
Definition is_scalar (v : value) : bool :=
  match v with
  | VArr _ | VObj _ => false
  | _ => true
  end.

(** *** Conditions and records *)

(** The WHERE conditions as the specification lists them: one per
    truthy key, in the order accountName, accountSource, segment. *)
Definition conditionsOf (render : value -> string) (filters : Filters)
  : list string :=
  omap (fun '(key, cond) =>
          if truthy (prop filters key)
          then Some (cond (render (prop filters key)))
          else None)
    [("accountName", fun e => "ssot__Name__c LIKE '%" +:+ e +:+ "%'");
     ("accountSource", fun e => "ssot__AccountSource__c = '" +:+ e +:+ "'");
     ("segment", fun e => "ssot__AccountTypeId__c = '" +:+ e +:+ "'")].

(** No WHERE clause for no condition, else the conditions joined. *)
Definition whereClause (conditions : list string) : string :=
  match conditions with
  | [] => ""
  | _ => " WHERE " +:+ join " AND " conditions
  end.

(** The named record of a positional row of [unifiedB2BQuery]. *)
Definition b2bRecord (row : list value) : value :=
  VObj [("name", default VUndefined (row !! 0%nat));
        ("number", default VUndefined (row !! 1%nat));
        ("accountSource", default VUndefined (row !! 2%nat));
        ("accountTypeId", default VUndefined (row !! 3%nat));
        ("createdDate", default VUndefined (row !! 4%nat));
        ("lastModifiedDate", default VUndefined (row !! 5%nat));
        ("parentAccountId", default VUndefined (row !! 6%nat));
        ("id", default VUndefined (row !! 7%nat))].

(** The named record of a positional row of [userEngagementQuery]. *)
Definition engagementRecord (row : list value) : value :=
  VObj [("clientSession", default VUndefined (row !! 0%nat));
        ("createdDate", default VUndefined (row !! 1%nat));
        ("entityType", default VUndefined (row !! 2%nat));
        ("eventIdentifier", default VUndefined (row !! 3%nat));
        ("eventName", default VUndefined (row !! 4%nat))].

(** *** Cleaning *)

(** The cleaned content of a filter object as the specification
    words it: the entries whose value is not [undefined], [null] or
    the empty string. *)
Definition cleaned (o : Filters) : Filters :=
  filter (fun kv => present kv.2 = true) o.

(** The own properties of the object [cleanFilters] returns: the
    entries that are present, but for an entry [__proto__]. *)
Definition cleanedOwn (o : Filters) : Filters :=
  filter (fun kv => present kv.2 = true /\ kv.1 <> "__proto__") o.

(** The prototype of the object [cleanFilters] returns: an object or
    array that the input holds at [__proto__], and else
    [Object.prototype]. *)
Definition cleanedPrototype (o : Filters) : Prototype :=
  match o !! "__proto__" with
  | Some v => if isObject v then ValuePrototype v else ObjectPrototype
  | None => ObjectPrototype
  end.

(** One step of the loop of [cleanFilters], on the own properties and
    the prototype of the object that is being filled. *)
Definition keepPresent (obj : Filters * Prototype) (kv : string * value)
  : Filters * Prototype :=
  if present kv.2 then assign obj.1 obj.2 kv.1 kv.2 else obj.

(** The same step on the own properties alone. *)
Definition keepOwn (acc : Filters) (kv : string * value) : Filters :=
  if present kv.2 && negb (String.eqb kv.1 "__proto__")
  then <[kv.1 := kv.2]> acc else acc.

(** The world [cleanFilters] leaves when it is called on the object
    at [l]: one new object, with the cleaned own properties and the
    prototype as above. *)
Definition afterCleaning (l : loc) (w : World) : World :=
  set_prototypes
    (<[fresh (dom (heap w)) := cleanedPrototype (heap w !!! l)]> (prototypes w))
    (set_heap
       (<[fresh (dom (heap w)) := cleanedOwn (heap w !!! l)]> (heap w)) w).

(** An object whose prototype is [Object.prototype] or [null], as an
    object literal, a parsed JSON text or a parsed query string. *)
Definition plainObject (w : World) (l : loc) : bool :=
  match prototypeOf w l with
  | ValuePrototype _ => false
  | _ => true
  end.

(** The value is an object that is not an array. *)
Definition isRecord (v : value) : bool :=
  match v with
  | VObj _ => true
  | _ => false
  end.

(** *** Outcomes of the methods *)

(** The world after [getDataCloudContext] asked for an authorization:
    one more request, one more log line, and the cache as given. *)
Definition afterAuthorization (name : string) (c : option Context)
    (w : World) : World :=
  {| _dataCloudContext := c;
     authorizations := S (authorizations w);
     logged := push (logged w)
                 (Info, "Getting Data Cloud connection for '" +:+ name +:+ "'...");
     heap := heap w;
     prototypes := prototypes w;
     now := now w |}.

(** The world in which the body of a method with an optional object
    parameter runs, and the reference the parameter is bound to: for a
    missing argument a new empty object is created first. *)
Definition boundWorld (arg : option loc) (w : World) : World :=
  match arg with
  | Some _ => w
  | None =>
      set_prototypes (<[fresh (dom (heap w)) := ObjectPrototype]> (prototypes w))
        (set_heap (<[fresh (dom (heap w)) := ∅]> (heap w)) w)
  end.

Definition boundRef (arg : option loc) (w : World) : loc :=
  match arg with
  | Some l => l
  | None => fresh (dom (heap w))
  end.

(** The content of the object the [filters] parameter is bound to, as
    [buildQuery] reads it. *)
Definition boundContent (arg : option loc) (w : World) : Filters :=
  visibleAt (boundWorld arg w) (boundRef arg w).

(** Steps 2 to 5 of [executeQuery] as one pure computation: resolve
    the query text, run it, transform the rows. *)
Definition resolveQuery (q : QueryObject) (o : Filters) : completion string :=
  match buildQuery q with
  | Some f => f (Some o)
  | None =>
      match sql q with
      | Some s => if truthy (VStr s) then Normal s else Throw missingQueryError
      | None => Throw missingQueryError
      end
  end.

Definition nullContextError : exn :=
  Error "Cannot read properties of null (reading 'dataCloudApi')".

Definition queryWith (c : option Context) (query : string)
  : completion Response :=
  match c with
  | Some ctx => dataCloudApi_query ctx query
  | None => Throw nullContextError
  end.

Definition runSteps (c : option Context) (q : QueryObject) (o : Filters)
  : completion (string * list value) :=
  query ← resolveQuery q o;
  response ← queryWith c query;
  records ← transform q (default [] (data response));
  mret (query, records).

(** A failure local to the query: in resolving its text, in running
    it, or in transforming its rows. *)
Inductive LocalFailure (c : option Context) (q : QueryObject) (o : Filters)
    (e : exn) : Prop :=
| ResolutionFails :
    resolveQuery q o = Throw e -> LocalFailure c q o e
| ExecutionFails (query : string) :
    resolveQuery q o = Normal query ->
    queryWith c query = Throw e -> LocalFailure c q o e
| TransformFails (query : string) (response : Response) :
    resolveQuery q o = Normal query ->
    queryWith c query = Normal response ->
    transform q (default [] (data response)) = Throw e ->
    LocalFailure c q o e.

(** The fallback query of the error envelope as the code computes it:
    [buildQuery()] when [buildQuery] is a function, the text Query
    build failed when that call throws, else [sql] when it is truthy,
    else [undefined]. *)
Definition fallbackQueryText (q : QueryObject) : option string :=
  match buildQuery q with
  | Some f =>
      match f None with
      | Normal s => Some s
      | Throw _ => Some "Query build failed"
      end
  | None =>
      match sql q with
      | Some s => if truthy (VStr s) then Some s else None
      | None => None
      end
  end.

(** The fallback query as the specification words it: [buildQuery()]
    if [buildQuery] exists, else [sql], and Query build failed if the
    computation throws. *)
Definition fallbackAsSpecified (q : QueryObject) : option string :=
  match buildQuery q with
  | Some f =>
      match f None with
      | Normal s => Some s
      | Throw _ => Some "Query build failed"
      end
  | None => sql q
  end.

(** The envelope [executeQuery] builds from the outcome of the steps. *)
Definition envelopeOf (q : QueryObject) (fl : loc) (t : string)
    (r : completion (string * list value)) : Envelope :=
  match r with
  | Normal (query, records) =>
      Success records
        {| totalRecords := length records; query := query;
           filters := Some fl; executedAt := t |}
  | Throw e =>
      Failure "Failed to execute Data Cloud query" (message e)
        (fallbackQueryText q) (Some fl)
  end.

Definition runRawSteps (c : option Context) (sql : string)
    (transformFn : option (list value -> completion (list value)))
  : completion (list value) :=
  response ← queryWith c sql;
  match transformFn with
  | Some f => f (default [] (data response))
  | None => Normal (default [] (data response))
  end.

(** The envelope [executeRawQuery] builds. *)
Definition rawEnvelopeOf (sql : string) (t : string)
    (r : completion (list value)) : Envelope :=
  match r with
  | Normal records =>
      Success records
        {| totalRecords := length records; query := sql;
           filters := None; executedAt := t |}
  | Throw e =>
      Failure "Failed to execute raw Data Cloud query" (message e)
        (Some sql) None
  end.

(** *** Sequences of calls on one instance *)

(** The calls that need the Data Cloud context. *)
Inductive Call : Type :=
| GetDataCloudContext
| ExecuteQuery (q : QueryObject) (arg : option loc)
| ExecuteRawQuery (sql : string)
    (transformFn : option (list value -> completion (list value)))
| ExecuteQueryWithFilters (q : QueryObject) (arg : option loc).

(** The world a call leaves, whether it resolves or rejects. *)
Definition perform (sdk : AppLinkSdk) (name : string) (c : Call)
    (w : World) : World :=
  match c with
  | GetDataCloudContext => (getDataCloudContext sdk name w).2
  | ExecuteQuery q arg => (executeQuery sdk name q arg w).2
  | ExecuteRawQuery sql transformFn =>
      (executeRawQuery sdk name sql transformFn w).2
  | ExecuteQueryWithFilters q arg =>
      (executeQueryWithFilters sdk name q arg w).2
  end.

(** Calls made one after the other, each awaited before the next. *)
Definition performAll (sdk : AppLinkSdk) (name : string)
    (calls : list Call) (w : World) : World :=
  foldl (fun w c => perform sdk name c w) w calls.

Definition authState (w : World) : option Context * nat :=
  (_dataCloudContext w, authorizations w).

(** What one call does to the cache and to the number of
    authorizations requested. *)
Definition authStep (sdk : AppLinkSdk) (name : string)
    (st : option Context * nat) : option Context * nat :=
  match st.1 with
  | Some ctx => (Some ctx, st.2)
  | None =>
      (match sdk name st.2 with
       | Normal ctx => Some ctx
       | Throw _ => None
       end, S st.2)
  end.

(** The i-th authorization was rejected. *)
Definition rejected (sdk : AppLinkSdk) (name : string) (i : nat) : Prop :=
  exists e, sdk name i = Throw e.

(** What holds of the cache and the number of authorizations of an
    instance at any time: while nothing is cached every authorization
    was rejected; a cached context is what the last authorization
    resolved to, and every one before was rejected. *)
Definition authInvariant (sdk : AppLinkSdk) (name : string)
    (st : option Context * nat) : Prop :=
  match st.1 with
  | None => forall i, i < st.2 -> rejected sdk name i
  | Some ctx =>
      (exists n, st.2 = S n /\ sdk name n = Normal ctx)
      /\ forall i, S i < st.2 -> rejected sdk name i
  end.

(** *** Example inputs *)

Definition oreillyFilters : Filters :=
  {[ "accountName" := VStr "O'Reilly" ]}.

(** A filter object whose accountName is an array holding one string
    with a quote, as a repeated query parameter produces it. *)
Definition arrayNameFilters : Filters :=
  {[ "accountName" := VArr [VStr "O'Reilly"] ]}.

(** The filter object of the cleaning example, at reference 0:
    [{a:'x', b:'', c:null, d:undefined, e:0, f:false, g:[], h:['y']}]. *)
Definition mixedFilters : Filters :=
  {[ "a" := VStr "x"; "b" := VStr ""; "c" := VNull; "d" := VUndefined;
     "e" := VNum 0; "f" := VBool false; "g" := VArr [];
     "h" := VArr [VStr "y"] ]}.

Definition mixedWorld : World :=
  newService {[ 0%nat := mixedFilters ]} "2024-01-01T00:00:00.000Z".

(** A filter object with an own property [__proto__] that holds a
    string, as [JSON.parse] or a query string makes it, at
    reference 0. *)
Definition protoStringFilters : Filters :=
  {[ "__proto__" := VStr "x"; "a" := VStr "y" ]}.

Definition protoStringWorld : World :=
  newService {[ 0%nat := protoStringFilters ]} "2024-01-01T00:00:00.000Z".

(** A filter object whose own property [__proto__] holds an object
    with an accountName, as [JSON.parse] makes it, at reference 0. *)
Definition protoObjectFilters : Filters :=
  {[ "__proto__" := VObj [("accountName", VStr "x")] ]}.

Definition protoObjectWorld : World :=
  newService {[ 0%nat := protoObjectFilters ]} "2024-01-01T00:00:00.000Z".

Definition exampleRow : value :=
  VArr [VStr "A"; VStr "1"; VStr "Web"; VStr "T1";
        VStr "d1"; VStr "d2"; VStr "P1"; VStr "ID1"].

(** A context whose query resolves to one row. *)
Definition exampleContext : Context :=
  {| dataCloudApi_query := fun _ => Normal {| data := Some [exampleRow] |} |}.

(** An SDK whose authorization always resolves. *)
Definition resolvingSdk : AppLinkSdk := fun _ _ => Normal exampleContext.

(** An SDK whose authorization is always rejected. *)
Definition rejectingSdk : AppLinkSdk :=
  fun _ _ => Throw (Error "authorization denied").

Definition exampleWorld : World :=
  newService {[ 0%nat := oreillyFilters ]} "2024-01-01T00:00:00.000Z".

(** A query object whose [sql] is the empty string. *)
Definition emptySqlQueryObject : QueryObject :=
  {| buildQuery := None; sql := Some ""; transform := fun rows => Normal rows |}.

(** A query object with neither [sql] nor [buildQuery]. *)
Definition bareQueryObject : QueryObject :=
  {| buildQuery := None; sql := None; transform := fun rows => Normal rows |}.

(** Two executions of the engagement query, one after the other. *)
Definition twoExecutions : list Call :=
  [ExecuteQuery userEngagementQueryObject None;
   ExecuteQuery userEngagementQueryObject None].

(** ** Further definitions *)

(** *** Counting characters *)

(** The number of occurrences of [c] in [s]. *)
Fixpoint count (c : ascii) (s : string) : nat :=
  match s with
  | EmptyString => 0
  | String a rest => (if Ascii.eqb a c then 1 else 0) + count c rest
  end.

(** *** The legacy exports of [src/lib/sql/queries.js] *)

Module queries.
Module engagement.
Definition userEngagement : string := userEngagementQuery.sql.
End engagement.
Module unified.
Definition b2b : string := unifiedB2BQuery.baseSql +:+ " LIMIT 100".
End unified.
End queries.

(** [unifiedB2BQuery.buildQuery.bind(unifiedB2BQuery)] and the two
    bound transforms. *)
Definition buildUnifiedB2BQuery (arg : option Filters) : string :=
  unifiedB2BQuery.buildQuery arg.
Definition transformEngagementRecords (records : list value)
  : completion (list value) :=
  userEngagementQuery.transform records.
Definition transformUnifiedB2BRecords (records : list value)
  : completion (list value) :=
  unifiedB2BQuery.transform records.

(** The three keys [buildQuery] reads. *)
Definition filterKeys : list string :=
  ["accountName"; "accountSource"; "segment"].

(** A filter object with a key that [buildQuery] does not read. *)
Definition filtersWithRegion : Filters :=
  {[ "accountName" := VStr "Acme"; "region" := VStr "EMEA" ]}.

(** A decimal digit. *)
Definition isDigit (c : ascii) : bool :=
  Nat.leb 48 (nat_of_ascii c) && Nat.leb (nat_of_ascii c) 57.


(** A filter object as a query string with a repeated parameter
    [__proto__] gives it: the own property [__proto__] holds an
    array.  It is at reference 0, with an empty segment. *)
Definition protoArrayFilters : Filters :=
  {[ "accountName" := VStr "Acme"; "segment" := VStr "";
     "__proto__" := VArr [VStr "a"; VStr "b"] ]}.

Definition protoArrayWorld : World :=
  newService {[ 0%nat := protoArrayFilters ]} "2024-01-01T00:00:00.000Z".

(** *** Comparing envelopes *)

(** Two envelopes that differ at most in their [filters]. *)
Definition sameButFilters (a b : Envelope) : Prop :=
  match a, b with
  | Success r1 m1, Success r2 m2 =>
      r1 = r2 /\ totalRecords m1 = totalRecords m2
      /\ query m1 = query m2 /\ executedAt m1 = executedAt m2
  | Failure e1 m1 q1 _, Failure e2 m2 q2 _ =>
      e1 = e2 /\ m1 = m2 /\ q1 = q2
  | _, _ => False
  end.

(** Two calls that both resolve, to such envelopes. *)
Definition sameResolved (a b : completion Envelope) : Prop :=
  match a, b with
  | Normal x, Normal y => sameButFilters x y
  | _, _ => False
  end.

(** The error line [executeQuery] logs for a message. *)
Definition errorLine (msg : string) : level * string :=
  (Err, "Error executing Data Cloud query: " +:+ msg).

(** The line [executeQuery] logs before it runs a query. *)
Definition executingLine (query : string) : level * string :=
  (Info, "Executing Data Cloud query: " +:+ query).

(** A context whose query is rejected. *)
Definition failingContext : Context :=
  {| dataCloudApi_query := fun _ => Throw (Error "boom") |}.

Definition failingQuerySdk : AppLinkSdk := fun _ _ => Normal failingContext.

(** *** [DataCloudQueryService.buildQueryParams] *)

(** The characters [encodeURIComponent] keeps: letters, digits and
    [- _ . ! ~ * ' ( )]. *)
Definition unreserved (c : ascii) : bool :=
  let n := nat_of_ascii c in
  (Nat.leb 65 n && Nat.leb n 90) || (Nat.leb 97 n && Nat.leb n 122)
  || (Nat.leb 48 n && Nat.leb n 57)
  || Nat.eqb n 45 || Nat.eqb n 95 || Nat.eqb n 46 || Nat.eqb n 33
  || Nat.eqb n 126 || Nat.eqb n 42 || Nat.eqb n 39 || Nat.eqb n 40
  || Nat.eqb n 41.

(** The upper-case hexadecimal digit of a number below 16. *)
Definition hexDigit (n : nat) : ascii :=
  if Nat.ltb n 10 then chr (48 + n) else chr (55 + n).

Definition percent : ascii := chr 37.
Definition ampersand : ascii := chr 38.
Definition equals : ascii := chr 61.

(** [%XX] for one byte. *)
Definition percentEncode (c : ascii) : string :=
  String percent
    (String (hexDigit (nat_of_ascii c / 16))
       (str1 (hexDigit (nat_of_ascii c mod 16)))).

(** [encodeURIComponent(s)], with the string read as the bytes of its
    UTF-8 encoding: every byte that is not an unreserved character is
    percent-encoded. *)
Fixpoint encodeURIComponent (s : string) : string :=
  match s with
  | EmptyString => EmptyString
  | String a rest =>
      if unreserved a then String a (encodeURIComponent rest)
      else percentEncode a +:+ encodeURIComponent rest
  end.

(** The static method [buildQueryParams(params, baseParams = [])].
    [params] is the object by its entries, in the order of
    [Object.entries]; [None] is the call without [baseParams]. *)
Definition buildQueryParams (params : list (string * value))
    (baseParams : option (list string)) : string :=
  let queryParams : list string := default [] baseParams in
  let queryParams :=
    foldl (fun queryParams '(key, value) =>
             if present value
             then push queryParams
                    (key +:+ "=" +:+ encodeURIComponent (toString value))
             else queryParams)
      queryParams params in
  join "&" queryParams.

(** The segment of one parameter. *)
Definition paramSegment (kv : string * value) : string :=
  kv.1 +:+ "=" +:+ encodeURIComponent (toString kv.2).

(** The total of the occurrences of [c] in the strings of a list. *)
Definition countIn (c : ascii) (parts : list string) : nat :=
  foldr (fun p n => count c p + n) 0 parts.

(** The parameters of the models lookup, with an empty one. *)
Definition modelsParams : list (string * value) :=
  [("entityCategory", VStr "Profile & more"); ("entityName", VStr "");
   ("space", VNull)].

(** *** [JSON.stringify] *)

Definition dquote : ascii := chr 34.

(** The lower-case hexadecimal digit of a number below 16. *)
Definition hexLower (n : nat) : ascii :=
  if Nat.ltb n 10 then chr (48 + n) else chr (87 + n).

(** A character inside a JSON string: the double quote and the
    backslash get a backslash, the control characters their short
    escape or [\u00XX], every other byte stays. *)
Definition jsonEscapeChar (c : ascii) : string :=
  let n := nat_of_ascii c in
  if Nat.eqb n 34 then String backslash (str1 dquote)
  else if Nat.eqb n 92 then String backslash (str1 backslash)
  else if Nat.eqb n 8 then String backslash "b"
  else if Nat.eqb n 9 then String backslash "t"
  else if Nat.eqb n 10 then String backslash "n"
  else if Nat.eqb n 12 then String backslash "f"
  else if Nat.eqb n 13 then String backslash "r"
  else if Nat.ltb n 32
       then String backslash
              ("u00" +:+ String (hexLower (n / 16)) (str1 (hexLower (n mod 16))))
  else str1 c.

Fixpoint jsonEscape (s : string) : string :=
  match s with
  | EmptyString => EmptyString
  | String a rest => jsonEscapeChar a +:+ jsonEscape rest
  end.

Definition jsonQuote (s : string) : string :=
  String dquote (jsonEscape s +:+ str1 dquote).

(** [JSON.stringify(v)]; [None] is [undefined].  In an array
    [undefined] is written [null]; in an object a property whose
    value is [undefined] is left out. *)
Fixpoint JSON_stringify (v : value) : option string :=
  match v with
  | VUndefined => None
  | VNull => Some "null"
  | VBool true => Some "true"
  | VBool false => Some "false"
  | VNum n => Some (numberToString n)
  | VStr s => Some (jsonQuote s)
  | VArr elems =>
      Some ("[" +:+
            join ","
              ((fix items (l : list value) : list string :=
                  match l with
                  | [] => []
                  | x :: rest => default "null" (JSON_stringify x) :: items rest
                  end) elems)
            +:+ "]")
  | VObj props =>
      Some ("{" +:+
            join ","
              ((fix members (l : list (string * value)) : list string :=
                  match l with
                  | [] => []
                  | (k, x) :: rest =>
                      match JSON_stringify x with
                      | Some t => (jsonQuote k +:+ ":" +:+ t) :: members rest
                      | None => members rest
                      end
                  end) props)
            +:+ "}")
  end.

(** [`${JSON.stringify(v)}`] *)
Definition JSON_text (v : value) : string :=
  default "undefined" (JSON_stringify v).

(** *** The Data Cloud routes of [src/routes/api.js] *)

(** What a handler leaves to Fastify: the value it returns, or the
    reply it sent with [reply.code(c).send({error, message, query})]. *)
Inductive RouteResult : Type :=
| Returned (records : list value) (metadata : Metadata)
| Replied (code : nat) (error : string) (msg : string) (failedQuery : string).

Module routes.
Section Handlers.

(** [request.sdk.addons.applink] and [fastify.envConfig.dcConnectionName] *)
Variable appLinkSdk : AppLinkSdk.
Variable dcConnectionName : string.

(** GET /datacloud/analysis/engagement *)
Definition engagement : M RouteResult :=
  try_catch
    (dataCloudContext ← getAuthorization appLinkSdk dcConnectionName;
     let query := userEngagementQuery.sql in
     logger_info ("Executing Data Cloud query: " +:+ query) ;;
     response ← lift (dataCloudApi_query dataCloudContext query);
     transformedRecords ←
       lift (userEngagementQuery.transform (default [] (data response)));
     executedAt ← Date_toISOString;
     mret (Returned transformedRecords
             {| totalRecords := length transformedRecords;
                query := query;
                filters := None;
                executedAt := executedAt |}))
    (fun err =>
       logger_error ("Error retrieving engagement data: " +:+ message err) ;;
       mret (Replied 500 "Failed to retrieve engagement data" (message err)
               userEngagementQuery.sql)).

(** GET /datacloud/analysis/unified-b2b, on [request.query]. *)
Definition unified_b2b (requestQuery : Filters) : M RouteResult :=
  let accountName := prop requestQuery "accountName" in
  let accountSource := prop requestQuery "accountSource" in
  let segment := prop requestQuery "segment" in
  try_catch
    (dataCloudContext ← getAuthorization appLinkSdk dcConnectionName;
     filters ← newObject ∅;
     (if truthy accountName then setProp filters "accountName" accountName
      else mret tt) ;;
     (if truthy accountSource
      then setProp filters "accountSource" accountSource
      else mret tt) ;;
     (if truthy segment then setProp filters "segment" segment
      else mret tt) ;;
     o ← visible filters;
     let query := unifiedB2BQuery.buildQuery (Some o) in
     response ← lift (dataCloudApi_query dataCloudContext query);
     transformedRecords ←
       lift (unifiedB2BQuery.transform (default [] (data response)));
     logger_info ("Transformed records: "
                    +:+ JSON_text (VArr transformedRecords)) ;;
     executedAt ← Date_toISOString;
     mret (Returned transformedRecords
             {| totalRecords := length transformedRecords;
                query := query;
                filters := Some filters;
                executedAt := executedAt |}))
    (fun err =>
       logger_error ("Error retrieving unified B2B data: " +:+ message err) ;;
       let fallbackQuery := unifiedB2BQuery.buildQuery None in
       mret (Replied 500 "Failed to retrieve unified B2B data" (message err)
               fallbackQuery)).

End Handlers.
End routes.

(** The filter object the unified B2B route builds from the request. *)
Definition routeFilters (requestQuery : Filters) : Filters :=
  let f : Filters := ∅ in
  let f := if truthy (prop requestQuery "accountName")
           then <["accountName" := prop requestQuery "accountName"]> f else f in
  let f := if truthy (prop requestQuery "accountSource")
           then <["accountSource" := prop requestQuery "accountSource"]> f
           else f in
  if truthy (prop requestQuery "segment")
  then <["segment" := prop requestQuery "segment"]> f else f.

(** A route result and an envelope that tell the same: the same
    records, count, query and time, or the same message and query. *)
Definition routeAgrees (r : completion RouteResult)
    (env : completion Envelope) : Prop :=
  match r, env with
  | Normal (Returned r1 m1), Normal (Success r2 m2) =>
      r1 = r2 /\ totalRecords m1 = totalRecords m2
      /\ query m1 = query m2 /\ executedAt m1 = executedAt m2
  | Normal (Replied code _ msg1 q1), Normal (Failure _ msg2 q2 _) =>
      code = 500 /\ msg1 = msg2 /\ Some q1 = q2
  | _, _ => False
  end.

(** The steps of the unified B2B route after the authorization. *)
Definition b2bRouteSteps (authorization : completion Context)
    (requestQuery : Filters) : completion (string * list value) :=
  ctx ← authorization;
  let query := unifiedB2BQuery.buildQuery (Some (routeFilters requestQuery)) in
  response ← dataCloudApi_query ctx query;
  records ← unifiedB2BQuery.transform (default [] (data response));
  mret (query, records).

(** What the unified B2B route leaves to Fastify. *)
Definition b2bRouteResult (lf : loc) (t : string)
    (r : completion (string * list value)) : RouteResult :=
  match r with
  | Normal (query, records) =>
      Returned records
        {| totalRecords := length records; query := query;
           filters := Some lf; executedAt := t |}
  | Throw e =>
      Replied 500 "Failed to retrieve unified B2B data" (message e)
        (unifiedB2BQuery.buildQuery None)
  end.

(** The steps of the engagement route after the authorization. *)
Definition engagementRouteSteps (authorization : completion Context)
  : completion (list value) :=
  ctx ← authorization;
  response ← dataCloudApi_query ctx userEngagementQuery.sql;
  userEngagementQuery.transform (default [] (data response)).

Definition engagementRouteResult (t : string)
    (r : completion (list value)) : RouteResult :=
  match r with
  | Normal records =>
      Returned records
        {| totalRecords := length records; query := userEngagementQuery.sql;
           filters := None; executedAt := t |}
  | Throw e =>
      Replied 500 "Failed to retrieve engagement data" (message e)
        userEngagementQuery.sql
  end.

(** GET /datacloud/models: the metadata URL the handler builds from
    [entityCategory] and [entityName] of [request.query]. *)
Definition metadataUrl (entityCategory entityName : value) : string :=
  let queryParams := ["entityType=DataModelObject"] in
  let queryParams :=
    if truthy entityCategory
    then push queryParams
           ("entityCategory=" +:+ encodeURIComponent (toString entityCategory))
    else queryParams in
  let queryParams :=
    if truthy entityName
    then push queryParams
           ("entityName=" +:+ encodeURIComponent (toString entityName))
    else queryParams in
  "/api/v1/metadata?" +:+ join "&" queryParams.

(** What a parsed query string holds at a key: a string, or nothing. *)
Definition queryStringValue (v : value) : bool :=
  match v with
  | VUndefined | VStr _ => true
  | _ => false
  end.

(** * Properties *)

(** ** Strings *)

Lemma append_nil_l (t : string) : "" +:+ t = t.
Proof. reflexivity. Qed.

Lemma append_cons (a : ascii) (s t : string) :
  String a s +:+ t = String a (s +:+ t).
Proof. reflexivity. Qed.

Lemma append_assoc (s1 s2 s3 : string) :
  (s1 +:+ s2) +:+ s3 = s1 +:+ s2 +:+ s3.
Proof.
  induction s1 as [|a s1 IH]; [reflexivity|].
  rewrite !append_cons. by rewrite IH.
Qed.

Lemma append_empty_r (s : string) : s +:+ "" = s.
Proof.
  induction s as [|a s IH]; [reflexivity|].
  rewrite append_cons. by rewrite IH.
Qed.

(** ** The query objects *)

(** *** [buildQuery]: conditions, WHERE clause and LIMIT *)

(** The pushes of [buildQuery], case by case on the three truthiness
    tests. *)
Ltac by_truthy_cases filters :=
  unfold conditionsOf, whereClause, push;
  cbn [omap list_omap];
  destruct (truthy (prop filters "accountName"));
  destruct (truthy (prop filters "accountSource"));
  destruct (truthy (prop filters "segment"));
  cbn [app length Nat.ltb Nat.leb];
  rewrite ?append_assoc; reflexivity.

Lemma buildQuery_shape (arg : option Filters) :
  unifiedB2BQuery.buildQuery arg
  = unifiedB2BQuery.baseSql
      +:+ whereClause
            (conditionsOf unifiedB2BQuery.escapeSqlString (default ∅ arg))
      +:+ " LIMIT 100".
Proof.
  unfold unifiedB2BQuery.buildQuery.
  generalize (default (∅ : Filters) arg). intros filters.
  by_truthy_cases filters.
Qed.

(** C5. [unifiedB2BQuery.buildQuery] returns [baseSql], then the
    conditions of the truthy keys in the order accountName,
    accountSource, segment joined by AND behind WHERE (no WHERE clause
    when there is no condition), then LIMIT 100 in every case; called
    without argument it returns [baseSql] followed by LIMIT 100. *)
Theorem buildQuery_where_and_limit (arg : option Filters) :
  unifiedB2BQuery.buildQuery arg
  = unifiedB2BQuery.baseSql
      +:+ whereClause
            (conditionsOf unifiedB2BQuery.escapeSqlString (default ∅ arg))
      +:+ " LIMIT 100"
  /\ whereClause [] = ""
  /\ (forall c cs, whereClause (c :: cs) = " WHERE " +:+ join " AND " (c :: cs))
  /\ unifiedB2BQuery.buildQuery None = unifiedB2BQuery.baseSql +:+ " LIMIT 100".
Proof.
  split_and!; [apply buildQuery_shape|reflexivity..].
Qed.

(** The copy without escaping has the same shape. *)
Lemma buildQuery_second_copy_shape (arg : option Filters) :
  SecondCopy.unifiedB2BQuery.buildQuery arg
  = unifiedB2BQuery.baseSql
      +:+ whereClause (conditionsOf toString (default ∅ arg))
      +:+ " LIMIT 100".
Proof.
  unfold SecondCopy.unifiedB2BQuery.buildQuery,
    SecondCopy.unifiedB2BQuery.baseSql.
  generalize (default (∅ : Filters) arg). intros filters.
  by_truthy_cases filters.
Qed.

(** Only the truthy keys give a condition, in the fixed order. *)
Lemma buildQuery_name_and_segment :
  unifiedB2BQuery.buildQuery
    (Some {[ "segment" := VStr "Enterprise"; "accountName" := VStr "Acme";
             "accountSource" := VStr "" ]})
  = unifiedB2BQuery.baseSql
      +:+ " WHERE ssot__Name__c LIKE '%Acme%'"
      +:+ " AND ssot__AccountTypeId__c = 'Enterprise'" +:+ " LIMIT 100".
Proof. reflexivity. Qed.

(** *** [transform]: positional rows to named records *)

Lemma index_array (row : list value) (i : nat) :
  index (VArr row) i = Normal (default VUndefined (row !! i)).
Proof. reflexivity. Qed.

Lemma b2b_transformRecord_array (row : list value) :
  unifiedB2BQuery.transformRecord (VArr row) = Normal (b2bRecord row).
Proof. reflexivity. Qed.

Lemma engagement_transformRecord_array (row : list value) :
  userEngagementQuery.transformRecord (VArr row) = Normal (engagementRecord row).
Proof. reflexivity. Qed.

(** Mapping a function that never throws over a list never throws,
    and maps element by element. *)
Lemma mapM_total {A B} (f : A -> completion B) (g : A -> B) (l : list A) :
  (forall x, x ∈ l -> f x = Normal (g x)) ->
  mapM f l = Normal (g <$> l).
Proof.
  induction l as [|x l IH]; intros Hf; [reflexivity|].
  cbn [mapM fmap list_fmap].
  rewrite (Hf x) by apply list_elem_of_here.
  cbn [mbind completion_bind].
  rewrite IH; [reflexivity|].
  intros y Hy. apply Hf. by apply list_elem_of_further.
Qed.

(** The first row that cannot be indexed makes [transform] throw. *)
Lemma mapM_throws {A B} (f : A -> completion B) (g : A -> B)
    (l1 l2 : list A) (x : A) (e : exn) :
  (forall y, y ∈ l1 -> f y = Normal (g y)) ->
  f x = Throw e ->
  mapM f (l1 ++ x :: l2)%list = Throw e.
Proof.
  induction l1 as [|y l1 IH]; intros Hf Hx.
  - cbn [app mapM]. rewrite Hx. reflexivity.
  - cbn [app mapM]. rewrite (Hf y) by apply list_elem_of_here.
    cbn [mbind completion_bind].
    rewrite IH; [reflexivity| |exact Hx].
    intros z Hz. apply Hf. by apply list_elem_of_further.
Qed.

(** C9. On every list of positional rows [transform] returns, without
    throwing, one record per row in the order of the rows: the output
    has the length of the input and its i-th record is built from the
    i-th row.  For [unifiedB2BQuery] positions 0 to 7 become name,
    number, accountSource, accountTypeId, createdDate,
    lastModifiedDate, parentAccountId and id; for
    [userEngagementQuery] positions 0 to 4 become its five fields. *)
Theorem transform_order_preserving (rows : list (list value)) :
  (exists out,
      unifiedB2BQuery.transform (VArr <$> rows) = Normal out
      /\ length out = length rows
      /\ forall i, out !! i = b2bRecord <$> rows !! i)
  /\ (exists out,
      userEngagementQuery.transform (VArr <$> rows) = Normal out
      /\ length out = length rows
      /\ forall i, out !! i = engagementRecord <$> rows !! i)
  /\ (forall a b c d e f g h,
      b2bRecord [a; b; c; d; e; f; g; h]
      = VObj [("name", a); ("number", b); ("accountSource", c);
              ("accountTypeId", d); ("createdDate", e);
              ("lastModifiedDate", f); ("parentAccountId", g); ("id", h)])
  /\ unifiedB2BQuery.transform
       [VArr [VStr "A"; VStr "1"; VStr "Web"; VStr "T1";
              VStr "d1"; VStr "d2"; VStr "P1"; VStr "ID1"]]
     = Normal
         [VObj [("name", VStr "A"); ("number", VStr "1");
                ("accountSource", VStr "Web"); ("accountTypeId", VStr "T1");
                ("createdDate", VStr "d1"); ("lastModifiedDate", VStr "d2");
                ("parentAccountId", VStr "P1"); ("id", VStr "ID1")]].
Proof.
  repeat split.
  - exists (b2bRecord <$> rows). repeat split.
    + unfold unifiedB2BQuery.transform.
      rewrite (mapM_total _ (fun v => match v with
                                      | VArr row => b2bRecord row
                                      | _ => VUndefined
                                      end)).
      * by rewrite <- list_fmap_compose.
      * intros x [row [-> _]]%list_elem_of_fmap.
        apply b2b_transformRecord_array.
    + apply length_fmap.
    + intros i. apply list_lookup_fmap.
  - exists (engagementRecord <$> rows). repeat split.
    + unfold userEngagementQuery.transform.
      rewrite (mapM_total _ (fun v => match v with
                                      | VArr row => engagementRecord row
                                      | _ => VUndefined
                                      end)).
      * by rewrite <- list_fmap_compose.
      * intros x [row [-> _]]%list_elem_of_fmap.
        apply engagement_transformRecord_array.
    + apply length_fmap.
    + intros i. apply list_lookup_fmap.
Qed.

(** A row that is [null] makes [transform] throw: reading its first
    position is a [TypeError]. *)
Lemma transform_null_row_throws (rows : list (list value)) (rest : list value) :
  unifiedB2BQuery.transform ((VArr <$> rows) ++ VNull :: rest)%list
  = Throw (Error "Cannot read properties of null (reading '0')").
Proof.
  unfold unifiedB2BQuery.transform.
  apply (mapM_throws _ (fun v => match v with
                                 | VArr row => b2bRecord row
                                 | _ => VUndefined
                                 end)); [|reflexivity].
  intros x [row [-> _]]%list_elem_of_fmap. apply b2b_transformRecord_array.
Qed.

(** *** [escapeSqlString] *)

Lemma replaceAll_plain (c : ascii) (r s : string) :
  special c = true -> plain s = true -> replaceAll c r s = s.
Proof.
  intros Hc. induction s as [|a s IH]; [reflexivity|].
  cbn [plain replaceAll]. intros [Ha Hs]%andb_prop.
  destruct (Ascii.eqb_spec a c) as [->|_].
  - rewrite Hc in Ha. discriminate.
  - by rewrite IH.
Qed.

Lemma sixReplacements_plain (s : string) :
  plain s = true -> sixReplacements s = s.
Proof.
  intros H. unfold sixReplacements.
  rewrite (replaceAll_plain quote) by done.
  rewrite (replaceAll_plain backslash) by done.
  rewrite (replaceAll_plain nul) by done.
  rewrite (replaceAll_plain lf) by done.
  rewrite (replaceAll_plain cr) by done.
  by rewrite (replaceAll_plain sub).
Qed.

Lemma string_of_uint_plain (d : Decimal.uint) :
  plain (NilEmpty.string_of_uint d) = true.
Proof. induction d; cbn [NilEmpty.string_of_uint plain]; by rewrite ?IHd. Qed.

Lemma numberToString_plain (n : Z) : plain (numberToString n) = true.
Proof.
  unfold numberToString, NilZero.string_of_int, NilZero.string_of_uint.
  destruct (Z.to_int n) as [d|d]; destruct d;
    first [reflexivity | apply (string_of_uint_plain (_ _))
          | cbn [plain]; apply (string_of_uint_plain (_ _))].
Qed.

Lemma occurs_append (c : ascii) (s t : string) :
  occurs c (s +:+ t) = occurs c s || occurs c t.
Proof.
  induction s as [|a s IH]; [reflexivity|].
  rewrite append_cons. cbn [occurs]. by rewrite IH, orb_assoc.
Qed.

(** A replacement removes its character when the replacing text does
    not bring it back. *)
Lemma replaceAll_removes (c : ascii) (r s : string) :
  occurs c r = false -> occurs c (replaceAll c r s) = false.
Proof.
  intros Hr. induction s as [|a s IH]; [reflexivity|].
  cbn [replaceAll]. destruct (Ascii.eqb a c) eqn:Ha.
  - by rewrite occurs_append, Hr, IH.
  - cbn [occurs]. by rewrite Ha, IH.
Qed.

(** A replacement does not bring in a character that neither the
    string nor the replacing text has. *)
Lemma replaceAll_keeps_out (c d : ascii) (r s : string) :
  occurs c r = false -> occurs c s = false ->
  occurs c (replaceAll d r s) = false.
Proof.
  intros Hr. induction s as [|a s IH]; [reflexivity|].
  cbn [occurs replaceAll]. intros [Ha Hs]%orb_false_elim.
  destruct (Ascii.eqb a d).
  - by rewrite occurs_append, Hr, IH.
  - cbn [occurs]. by rewrite Ha, IH.
Qed.

(** After the six replacements a string has no null byte, no line
    feed, no carriage return and no SUB character. *)
Lemma sixReplacements_no_control (s : string) :
  occurs nul (sixReplacements s) = false
  /\ occurs lf (sixReplacements s) = false
  /\ occurs cr (sixReplacements s) = false
  /\ occurs sub (sixReplacements s) = false.
Proof.
  unfold sixReplacements. split_and!.
  - do 3 (apply replaceAll_keeps_out; [reflexivity|]).
    by apply replaceAll_removes.
  - do 2 (apply replaceAll_keeps_out; [reflexivity|]).
    by apply replaceAll_removes.
  - apply replaceAll_keeps_out; [reflexivity|].
    by apply replaceAll_removes.
  - by apply replaceAll_removes.
Qed.

(** The six replacements are not idempotent: a quote is doubled again. *)
Lemma sixReplacements_not_idempotent :
  sixReplacements (sixReplacements "O'Reilly") <> sixReplacements "O'Reilly".
Proof. intros H. vm_compute in H. discriminate H. Qed.

(** A value that is not a string is returned as its string
    representation, without any replacement. *)
Lemma escapeSqlString_non_string (v : value) :
  is_string v = false -> unifiedB2BQuery.escapeSqlString v = toString v.
Proof. destruct v; [reflexivity..|discriminate|reflexivity|reflexivity]. Qed.

(** On a string the function is the six replacements, in their order;
    the empty string stays empty. *)
Lemma escapeSqlString_string (s : string) :
  unifiedB2BQuery.escapeSqlString (VStr s) = sixReplacements s
  /\ unifiedB2BQuery.escapeSqlString (VStr s) = escapeAsSpecified (VStr s)
  /\ unifiedB2BQuery.escapeSqlString (VStr "") = "".
Proof. repeat split. Qed.

(** On [undefined], [null], booleans and numbers the string
    representation has nothing to escape, so returning it at once is
    the same as escaping it. *)
Lemma escapeSqlString_scalar (v : value) :
  is_scalar v = true ->
  unifiedB2BQuery.escapeSqlString v = escapeAsSpecified v.
Proof.
  destruct v as [| |[]|n|s|?|?]; intros Hv; try discriminate Hv;
    try reflexivity.
  unfold escapeAsSpecified. cbn [unifiedB2BQuery.escapeSqlString toString].
  symmetry. apply sixReplacements_plain, numberToString_plain.
Qed.

(** C3, as amended.  On a string, and on [undefined], [null], a
    boolean or a number, [escapeSqlString] returns what coercing the
    input to its string representation and then applying the six
    replacements in their order gives: quote to two quotes, backslash
    to two backslashes, null byte removed, line feed to backslash n,
    carriage return to backslash r, SUB to backslash Z.  The empty
    string maps to the empty string. *)
Theorem escapeSqlString_coerces_then_replaces (v : value) :
  is_scalar v = true ->
  unifiedB2BQuery.escapeSqlString v
  = replaceAll sub (String backslash "Z")
      (replaceAll cr (String backslash "r")
         (replaceAll lf (String backslash "n")
            (replaceAll nul ""
               (replaceAll backslash (String backslash (str1 backslash))
                  (replaceAll quote (String quote (str1 quote))
                     (toString v))))))
  /\ unifiedB2BQuery.escapeSqlString (VStr "") = "".
Proof.
  intros Hv. split; [|reflexivity].
  exact (escapeSqlString_scalar v Hv).
Qed.

(** The hypothesis of the amended C3 at the number 123, which is
    returned as the string 123. *)
Lemma escapeSqlString_coerces_then_replaces_witness :
  is_scalar (VNum 123) = true
  /\ unifiedB2BQuery.escapeSqlString (VNum 123) = "123"
  /\ unifiedB2BQuery.escapeSqlString (VNum 123)
     = sixReplacements (toString (VNum 123)).
Proof.
  split; [reflexivity|]. split; [reflexivity|].
  exact (proj1 (escapeSqlString_coerces_then_replaces (VNum 123) eq_refl)).
Defined.

(** C3 as stated fails on an array: its string representation is
    returned as it is.  For the array holding the string O'Reilly the
    function returns O'Reilly with its quote, where coercing and then
    applying the six replacements gives O''Reilly. *)
Lemma escapeSqlString_array_not_escaped :
  unifiedB2BQuery.escapeSqlString (VArr [VStr "O'Reilly"]) = "O'Reilly"
  /\ escapeAsSpecified (VArr [VStr "O'Reilly"]) = "O''Reilly"
  /\ unifiedB2BQuery.escapeSqlString (VArr [VStr "O'Reilly"])
     <> escapeAsSpecified (VArr [VStr "O'Reilly"]).
Proof. repeat split. intros H. vm_compute in H. discriminate H. Qed.

(** On string values the first copy of [buildQuery] embeds the
    escaped value. *)
Lemma buildQuery_escapes_strings (name source segment : string) :
  name <> "" -> source <> "" -> segment <> "" ->
  unifiedB2BQuery.buildQuery
    (Some {[ "accountName" := VStr name; "accountSource" := VStr source;
             "segment" := VStr segment ]})
  = unifiedB2BQuery.baseSql
      +:+ " WHERE ssot__Name__c LIKE '%" +:+ sixReplacements name +:+ "%'"
      +:+ " AND ssot__AccountSource__c = '" +:+ sixReplacements source +:+ "'"
      +:+ " AND ssot__AccountTypeId__c = '" +:+ sixReplacements segment +:+ "'"
      +:+ " LIMIT 100".
Proof.
  intros Hn Hs Hg.
  set (m := ({[ "accountName" := VStr name; "accountSource" := VStr source;
                "segment" := VStr segment ]} : Filters)).
  assert (H1 : prop m "accountName" = VStr name) by reflexivity.
  assert (H2 : prop m "accountSource" = VStr source) by reflexivity.
  assert (H3 : prop m "segment" = VStr segment) by reflexivity.
  rewrite (buildQuery_shape (Some m)).
  change (default ∅ (Some m)) with m.
  unfold conditionsOf. cbn [omap list_omap].
  rewrite H1, H2, H3. cbn [truthy].
  apply String.eqb_neq in Hn, Hs, Hg. rewrite Hn, Hs, Hg.
  cbn [negb whereClause join].
  change (unifiedB2BQuery.escapeSqlString (VStr name)) with (sixReplacements name).
  change (unifiedB2BQuery.escapeSqlString (VStr source)) with (sixReplacements source).
  change (unifiedB2BQuery.escapeSqlString (VStr segment)) with (sixReplacements segment).
  rewrite !append_assoc. reflexivity.
Qed.

Lemma buildQuery_oreilly :
  unifiedB2BQuery.buildQuery (Some oreillyFilters)
  = unifiedB2BQuery.baseSql
      +:+ " WHERE ssot__Name__c LIKE '%O''Reilly%'" +:+ " LIMIT 100".
Proof. reflexivity. Qed.

(** C4. Two filter values that reach the WHERE clause without being
    escaped: the string O'Reilly in the copy of [buildQuery] that has
    no escaping, and the array holding O'Reilly in the copy that calls
    [escapeSqlString]. *)
Theorem buildQuery_embeds_unescaped :
  SecondCopy.unifiedB2BQuery.buildQuery (Some oreillyFilters)
  = unifiedB2BQuery.baseSql
      +:+ " WHERE ssot__Name__c LIKE '%O'Reilly%'" +:+ " LIMIT 100"
  /\ unifiedB2BQuery.buildQuery (Some arrayNameFilters)
     = unifiedB2BQuery.baseSql
         +:+ " WHERE ssot__Name__c LIKE '%O'Reilly%'" +:+ " LIMIT 100".
Proof. split; reflexivity. Qed.

(** ** The service *)

(** *** Running computations *)

Lemma bind_normal {A B} (m : M A) (f : A -> M B) (w w' : World) (a : A) :
  m w = (Normal a, w') -> (m ≫= f) w = f a w'.
Proof. intros H. unfold mbind, M_bind. by rewrite H. Qed.

Lemma bind_throw {A B} (m : M A) (f : A -> M B) (w w' : World) (e : exn) :
  m w = (Throw e, w') -> (m ≫= f) w = (Throw e, w').
Proof. intros H. unfold mbind, M_bind. by rewrite H. Qed.

Lemma try_catch_normal {A} (m : M A) (h : exn -> M A) (w w' : World) (a : A) :
  m w = (Normal a, w') -> try_catch m h w = (Normal a, w').
Proof. intros H. unfold try_catch. by rewrite H. Qed.

Lemma try_catch_throw {A} (m : M A) (h : exn -> M A) (w w' : World) (e : exn) :
  m w = (Throw e, w') -> try_catch m h w = h e w'.
Proof. intros H. unfold try_catch. by rewrite H. Qed.

(** *** [cleanFilters] *)

Lemma present_iff (v : value) :
  present v = true <-> v <> VUndefined /\ v <> VNull /\ v <> VStr "".
Proof.
  destruct v as [| |b|n|s|?|?]; cbn; try (split; [intros _; done|done]);
    try (split; [discriminate|intros (?&?&?); done]).
  destruct (String.eqb_spec s "") as [->|Hs]; cbn.
  - split; [discriminate|intros (?&?&?); done].
  - split; [intros _; repeat split; congruence|done].
Qed.

(** An assignment to a key other than [__proto__] writes an own
    property. *)
Lemma assign_other (own : Filters) (proto : Prototype) (key : string)
    (v : value) :
  key <> "__proto__" -> assign own proto key v = (<[key := v]> own, proto).
Proof. intros H. unfold assign. apply String.eqb_neq in H. by rewrite H. Qed.

(** An assignment of a present value to [__proto__], on an object
    with the prototype [Object.prototype] and no own property of that
    name: an object or array becomes the prototype, every other value
    is lost. *)
Lemma assign_proto_literal (own : Filters) (v : value) :
  own !! "__proto__" = None -> present v = true ->
  assign own ObjectPrototype "__proto__" v
  = (own, if isObject v then ValuePrototype v else ObjectPrototype).
Proof.
  intros Ho Hp. unfold assign, reachesProtoSetter. rewrite Ho.
  destruct v; try reflexivity. discriminate Hp.
Qed.

Lemma prototypeOf_insert (l : loc) (p : Prototype)
    (ps : gmap loc Prototype) (w : World) :
  prototypeOf (set_prototypes (<[l := p]> ps) w) l = p.
Proof.
  unfold prototypeOf. cbn [prototypes set_prototypes].
  by rewrite lookup_insert_eq.
Qed.


Lemma world_insert_id (lc : loc) (w : World) :
  is_Some (heap w !! lc) -> is_Some (prototypes w !! lc) ->
  set_prototypes (<[lc := prototypeOf w lc]> (prototypes w))
    (set_heap (<[lc := heap w !!! lc]> (heap w)) w)
  = w.
Proof.
  intros [o Ho] [p Hp]. unfold prototypeOf.
  rewrite (lookup_total_correct _ _ _ Ho), Hp. cbn [default from_option id].
  rewrite (insert_id _ _ _ Ho), (insert_id _ _ _ Hp). by destruct w.
Qed.

(** The loop writes to the new object only, and fills it as
    [keepPresent] does, entry after entry. *)
Lemma forEach_keepPresent (lc : loc) (entries : list (string * value))
    (w : World) :
  is_Some (heap w !! lc) -> is_Some (prototypes w !! lc) ->
  forEach entries
    (fun '(key, value) =>
       if present value then setProp lc key value else mret tt) w
  = (Normal tt,
     set_prototypes
       (<[lc := (foldl keepPresent (heap w !!! lc, prototypeOf w lc) entries).2]>
          (prototypes w))
       (set_heap
          (<[lc := (foldl keepPresent (heap w !!! lc, prototypeOf w lc) entries).1]>
             (heap w)) w)).
Proof.
  revert w. induction entries as [|[k v] entries IH]; intros w Hh Hp.
  - cbn [forEach foldl fst snd]. by rewrite world_insert_id.
  - cbn [forEach foldl]. unfold keepPresent at 2 4. cbn [fst snd].
    destruct (present v) eqn:Hv.
    + unfold mbind at 1, M_bind at 1, setProp, update.
      set (obj := assign (heap w !!! lc) (prototypeOf w lc) k v).
      rewrite IH;
        [|cbn [heap set_heap set_prototypes]; rewrite lookup_insert_eq; by eexists
         |cbn [prototypes set_heap set_prototypes]; rewrite lookup_insert_eq;
          by eexists].
      unfold prototypeOf at 1 2.
      cbn [heap prototypes set_heap set_prototypes].
      rewrite !lookup_total_insert_eq, !lookup_insert_eq, !insert_insert_eq.
      cbn [default from_option id].
      destruct obj as [own proto]. reflexivity.
    + unfold mbind at 1, M_bind at 1, mret, M_ret. by apply IH.
Qed.

(** Where no entry has the key [__proto__] the prototype stays. *)
Lemma foldl_keepPresent_no_proto (entries : list (string * value))
    (acc : Filters) (p : Prototype) :
  "__proto__" ∉ entries.*1 ->
  foldl keepPresent (acc, p) entries = (foldl keepOwn acc entries, p).
Proof.
  revert acc. induction entries as [|[k v] entries IH]; intros acc Hk; [done|].
  cbn [fmap list_fmap fst] in Hk. apply not_elem_of_cons in Hk as [Hne Hk].
  assert (Hkey : String.eqb k "__proto__" = false)
    by (apply String.eqb_neq; congruence).
  cbn [foldl]. unfold keepPresent at 2, keepOwn at 2. cbn [fst snd].
  rewrite Hkey. destruct (present v); cbn [andb negb];
    [rewrite assign_other by congruence|]; by apply IH.
Qed.

(** On an object literal, entries with distinct keys leave the own
    properties of [keepOwn], and as prototype what an entry
    [__proto__] gave. *)
Lemma foldl_keepPresent_literal (entries : list (string * value))
    (acc : Filters) :
  NoDup entries.*1 -> acc !! "__proto__" = None ->
  foldl keepPresent (acc, ObjectPrototype) entries
  = (foldl keepOwn acc entries, cleanedPrototype (list_to_map entries)).
Proof.
  revert acc. induction entries as [|[k v] entries IH]; intros acc Hnd Hacc.
  - cbn. unfold cleanedPrototype. by rewrite lookup_empty.
  - cbn [fmap list_fmap fst] in Hnd. apply NoDup_cons in Hnd as [Hk Hnd].
    cbn [foldl list_to_map foldr curry fst snd].
    unfold keepPresent at 2, keepOwn at 2, cleanedPrototype. cbn [fst snd].
    destruct (decide (k = "__proto__")) as [->|Hne].
    + rewrite lookup_insert_eq. cbn [String.eqb Ascii.eqb Bool.eqb andb negb].
      rewrite andb_false_r.
      destruct (present v) eqn:Hv.
      * rewrite assign_proto_literal by done.
        by apply foldl_keepPresent_no_proto.
      * rewrite foldl_keepPresent_no_proto by done.
        destruct v as [| |b|n|s|?|?]; try discriminate Hv; reflexivity.
    + rewrite lookup_insert_ne by done.
      assert (Hkey : String.eqb k "__proto__" = false)
        by (by apply String.eqb_neq).
      rewrite Hkey, andb_true_r.
      destruct (present v).
      * rewrite assign_other by done. rewrite IH; [done|done|].
        by rewrite lookup_insert_ne.
      * by rewrite IH.
Qed.

Lemma keepOwn_lookup (acc : Filters) (k0 k : string) (v0 v : value) :
  acc !! k0 = None ->
  keepOwn acc (k0, v0) !! k = Some v
  <-> acc !! k = Some v
      \/ ((k, v) = (k0, v0) /\ present v = true /\ k <> "__proto__").
Proof.
  intros Hk0. unfold keepOwn. cbn [fst snd].
  destruct (present v0) eqn:Hp; cbn [andb].
  - destruct (String.eqb_spec k0 "__proto__") as [->|Hne]; cbn [negb].
    + split; [by left|]. intros [?|[[= -> ->] [_ ?]]]; done.
    + rewrite lookup_insert_Some. split.
      * intros [[-> ->]|[_ ?]]; [right|left]; done.
      * intros [Hacc|[[= -> ->] _]]; [right|left; done].
        split; [|done]. intros ->. congruence.
  - split; [by left|]. intros [?|[[= -> ->] [? _]]]; [done|congruence].
Qed.

(** Folding [keepOwn] over entries with distinct keys keeps what was
    there, and adds the present entries but for [__proto__]. *)
Lemma foldl_keepOwn_lookup (entries : list (string * value))
    (acc : Filters) (k : string) (v : value) :
  NoDup entries.*1 ->
  (forall k', k' ∈ entries.*1 -> acc !! k' = None) ->
  foldl keepOwn acc entries !! k = Some v
  <-> acc !! k = Some v
      \/ ((k, v) ∈ entries /\ present v = true /\ k <> "__proto__").
Proof.
  revert acc. induction entries as [|[k0 v0] entries IH]; intros acc Hnd Hfresh.
  - cbn. split; [by left|intros [?|[[]%elem_of_nil _]]; done].
  - cbn [fmap list_fmap fst] in Hnd, Hfresh.
    apply NoDup_cons in Hnd as [Hk0 Hnd].
    assert (Hacc0 : acc !! k0 = None) by (apply Hfresh; left).
    cbn [foldl]. rewrite IH; [|done|].
    + rewrite keepOwn_lookup by done. rewrite elem_of_cons. tauto.
    + intros k' Hk'.
      destruct (keepOwn acc (k0, v0) !! k') as [v'|] eqn:Hv'; [|done].
      apply keepOwn_lookup in Hv' as [Hv'|[[= -> ->] _]]; [|done..].
      rewrite Hfresh in Hv'; [done|by right].
Qed.

Lemma foldl_keepPresent_cleaned (o : Filters) :
  foldl keepPresent (∅, ObjectPrototype) (map_to_list o)
  = (cleanedOwn o, cleanedPrototype o).
Proof.
  rewrite foldl_keepPresent_literal;
    [|apply NoDup_fst_map_to_list|apply lookup_empty].
  rewrite list_to_map_to_list. f_equal.
  apply map_eq. intros k. apply option_eq. intros v.
  rewrite foldl_keepOwn_lookup.
  - unfold cleanedOwn. rewrite map_lookup_filter_Some, lookup_empty.
    rewrite elem_of_map_to_list. cbn. split; [intros [?|?]; done|by right].
  - apply NoDup_fst_map_to_list.
  - intros; apply lookup_empty.
Qed.

(** The outcome of [cleanFilters]: a new object with the cleaned own
    properties is added to the heap, with the prototype that an entry
    [__proto__] of the input gave it, and nothing else changes. *)
Lemma cleanFilters_outcome (l : loc) (w : World) :
  cleanFilters l w = (Normal (fresh (dom (heap w))), afterCleaning l w).
Proof.
  unfold afterCleaning.
  set (lc := fresh (dom (heap w))).
  assert (Hfresh : heap w !! lc = None).
  { apply not_elem_of_dom. apply is_fresh. }
  unfold cleanFilters.
  unfold mbind at 1, M_bind at 1, newObject. fold lc.
  unfold mbind at 1, M_bind at 1, Object_entries, deref, read.
  unfold mbind at 1, M_bind at 1, mret at 1, M_ret at 1.
  cbn [heap set_heap set_prototypes].
  set (w1 := set_prototypes _ (set_heap (<[lc := ∅]> (heap w)) w)).
  assert (Hin : (<[lc := ∅]> (heap w) : gmap loc Filters) !!! l = heap w !!! l).
  { destruct (decide (l = lc)) as [->|Hne].
    - rewrite lookup_total_insert_eq. rewrite lookup_total_alt, Hfresh. done.
    - by rewrite lookup_total_insert_ne. }
  rewrite Hin.
  unfold mbind, M_bind.
  rewrite (forEach_keepPresent lc (map_to_list (heap w !!! l)) w1);
    [|subst w1; cbn [heap set_heap set_prototypes]; rewrite lookup_insert_eq;
      by eexists
     |subst w1; cbn [prototypes set_heap set_prototypes];
      rewrite lookup_insert_eq; by eexists].
  cbn [mret M_ret]. f_equal.
  unfold prototypeOf. subst w1.
  cbn [heap prototypes set_heap set_prototypes].
  rewrite lookup_total_insert_eq, lookup_insert_eq.
  cbn [default from_option id].
  rewrite foldl_keepPresent_cleaned. cbn [fst snd].
  rewrite !insert_insert_eq. reflexivity.
Qed.

(** The own properties [cleanFilters] leaves are those of cleaning as
    the specification words it, but for an entry [__proto__]. *)
Lemma cleanedOwn_lookup (o : Filters) (k : string) (v : value) :
  cleanedOwn o !! k = Some v
  <-> cleaned o !! k = Some v /\ k <> "__proto__".
Proof.
  unfold cleanedOwn, cleaned. rewrite !map_lookup_filter_Some. cbn. tauto.
Qed.

Lemma cleanedOwn_subseteq (o : Filters) : cleanedOwn o ⊆ o.
Proof. apply map_filter_subseteq. Qed.

Lemma cleanedOwn_idemp (o : Filters) : cleanedOwn (cleanedOwn o) = cleanedOwn o.
Proof.
  apply map_eq. intros k. apply option_eq. intros v. unfold cleanedOwn.
  rewrite !map_lookup_filter_Some. tauto.
Qed.

(** The object [cleanFilters] returns has no own property
    [__proto__], so cleaning it again gives the prototype
    [Object.prototype]. *)
Lemma cleanedPrototype_cleanedOwn (o : Filters) :
  cleanedPrototype (cleanedOwn o) = ObjectPrototype.
Proof.
  unfold cleanedPrototype.
  destruct (cleanedOwn o !! "__proto__") as [v|] eqn:Hv; [|done].
  apply cleanedOwn_lookup in Hv as [_ Hne]. done.
Qed.

(** C6.  The general behaviour of [cleanFilters], and the inputs on
    which it is not the cleaning of the specification.  It returns a
    new object, and leaves the input and every other object as they
    were.  For every key but [__proto__] the new object holds the key
    with a value exactly when the input holds it with that value and
    the value is not [undefined], [null] or the empty string; on
    [{a:'x', b:'', c:null, d:undefined, e:0, f:false, g:[], h:['y']}]
    the result is [{a:'x', e:0, f:false, g:[], h:['y']}].  An entry
    [__proto__] of the input is never an entry of the result, although
    its value is present: on the input with [__proto__] x and [a] y
    the result is [{a:'y'}]; and when its value is an object, that
    object becomes the prototype of the result, through which
    [buildQuery] reads a filter that the input does not have. *)
Theorem cleanFilters_loses_proto_entry :
  (forall l w,
      exists lc w',
        cleanFilters l w = (Normal lc, w')
        /\ (lc ∉ dom (heap w))
        /\ (forall k v,
              k <> "__proto__" ->
              ((heap w' !!! lc) !! k = Some v
               <-> (heap w !!! l) !! k = Some v
                   /\ v <> VUndefined /\ v <> VNull /\ v <> VStr ""))
        /\ (heap w' !!! lc) !! "__proto__" = None
        /\ prototypeOf w' lc = cleanedPrototype (heap w !!! l)
        /\ (forall l0, l0 ∈ dom (heap w) ->
                       heap w' !! l0 = heap w !! l0
                       /\ prototypeOf w' l0 = prototypeOf w l0))
  /\ (fst (cleanFilters 0%nat mixedWorld) = Normal 1%nat
      /\ heap (snd (cleanFilters 0%nat mixedWorld)) !! 1%nat
         = Some ({[ "a" := VStr "x"; "e" := VNum 0; "f" := VBool false;
                    "g" := VArr []; "h" := VArr [VStr "y"] ]} : Filters)
      /\ heap (snd (cleanFilters 0%nat mixedWorld)) !! 0%nat = Some mixedFilters)
  /\ (protoStringFilters !! "__proto__" = Some (VStr "x")
      /\ present (VStr "x") = true
      /\ cleaned protoStringFilters = protoStringFilters
      /\ heap (snd (cleanFilters 0%nat protoStringWorld)) !! 1%nat
         = Some ({[ "a" := VStr "y" ]} : Filters)
      /\ prototypeOf (snd (cleanFilters 0%nat protoStringWorld)) 1%nat
         = ObjectPrototype)
  /\ (heap (snd (cleanFilters 0%nat protoObjectWorld)) !! 1%nat
      = Some (∅ : Filters)
      /\ prototypeOf (snd (cleanFilters 0%nat protoObjectWorld)) 1%nat
         = ValuePrototype (VObj [("accountName", VStr "x")])
      /\ unifiedB2BQuery.buildQuery
           (Some (visibleAt protoObjectWorld 0%nat))
         = unifiedB2BQuery.baseSql +:+ " LIMIT 100"
      /\ unifiedB2BQuery.buildQuery
           (Some (visibleAt (snd (cleanFilters 0%nat protoObjectWorld)) 1%nat))
         = unifiedB2BQuery.baseSql
             +:+ " WHERE ssot__Name__c LIKE '%x%'" +:+ " LIMIT 100").
Proof.
  split; [|by vm_compute].
  intros l w. eexists _, _. split; [apply cleanFilters_outcome|].
  unfold afterCleaning, prototypeOf.
  cbn [heap prototypes set_heap set_prototypes].
  assert (Hfresh : fresh (dom (heap w)) ∉ dom (heap w)) by apply is_fresh.
  rewrite lookup_total_insert_eq, lookup_insert_eq.
  split_and!; [done| | |done|intros l0 Hl0].
  - intros k v Hk. rewrite cleanedOwn_lookup. unfold cleaned.
    rewrite map_lookup_filter_Some. cbn. rewrite present_iff. tauto.
  - destruct (cleanedOwn (heap w !!! l) !! "__proto__") as [v|] eqn:Hv; [|done].
    apply cleanedOwn_lookup in Hv as [_ Hne]. done.
  - assert (l0 <> fresh (dom (heap w))) by (intros Heq; by subst l0).
    by rewrite !lookup_insert_ne.
Qed.

(** *** [getDataCloudContext] *)

Section Service.

Variable appLinkSdk : AppLinkSdk.
Variable dcConnectionName : string.

Local Abbreviation getDataCloudContext :=
  (getDataCloudContext appLinkSdk dcConnectionName).
Local Abbreviation executeQuery := (executeQuery appLinkSdk dcConnectionName).
Local Abbreviation executeRawQuery :=
  (executeRawQuery appLinkSdk dcConnectionName).
Local Abbreviation executeQueryWithFilters :=
  (executeQueryWithFilters appLinkSdk dcConnectionName).

Lemma getDataCloudContext_cached (w : World) (ctx : Context) :
  _dataCloudContext w = Some ctx ->
  getDataCloudContext w = (Normal (Some ctx), w).
Proof.
  intros H. unfold DataCloudQueryService.getDataCloudContext, read, mbind, M_bind, mret, M_ret.
  rewrite H. cbn. by rewrite H.
Qed.

Lemma getDataCloudContext_resolved (w : World) (ctx : Context) :
  _dataCloudContext w = None ->
  appLinkSdk dcConnectionName (authorizations w) = Normal ctx ->
  getDataCloudContext w
  = (Normal (Some ctx), afterAuthorization dcConnectionName (Some ctx) w).
Proof.
  intros H Hs.
  unfold DataCloudQueryService.getDataCloudContext, read, mbind, M_bind, mret, M_ret,
    getAuthorization, logger_info, update.
  rewrite H. cbn. rewrite Hs. reflexivity.
Qed.

Lemma getDataCloudContext_rejected (w : World) (e : exn) :
  _dataCloudContext w = None ->
  appLinkSdk dcConnectionName (authorizations w) = Throw e ->
  getDataCloudContext w
  = (Throw e, afterAuthorization dcConnectionName None w).
Proof.
  intros H Hs.
  unfold DataCloudQueryService.getDataCloudContext, read, mbind, M_bind, mret, M_ret,
    getAuthorization, logger_info, update.
  rewrite H. cbn. rewrite Hs.
  unfold afterAuthorization, set_authorizations, set_logged. cbn.
  by rewrite H.
Qed.

(** Every call of [getDataCloudContext] is one of three: the cached
    context is returned and nothing changes; or nothing is cached and
    the one authorization that is requested resolves and is cached;
    or it is rejected, the rejection is passed on and nothing is
    cached. *)
Lemma getDataCloudContext_cases (w : World) :
  (exists ctx,
      _dataCloudContext w = Some ctx
      /\ getDataCloudContext w = (Normal (Some ctx), w))
  \/ (exists ctx,
      _dataCloudContext w = None
      /\ appLinkSdk dcConnectionName (authorizations w) = Normal ctx
      /\ getDataCloudContext w
         = (Normal (Some ctx), afterAuthorization dcConnectionName (Some ctx) w))
  \/ (exists e,
      _dataCloudContext w = None
      /\ appLinkSdk dcConnectionName (authorizations w) = Throw e
      /\ getDataCloudContext w
         = (Throw e, afterAuthorization dcConnectionName None w)).
Proof.
  destruct (_dataCloudContext w) as [ctx|] eqn:Hc.
  - left. exists ctx. split; [done|]. by apply getDataCloudContext_cached.
  - destruct (appLinkSdk dcConnectionName (authorizations w)) as [ctx|e] eqn:Hs.
    + right; left. exists ctx. repeat split; try done.
      by apply getDataCloudContext_resolved.
    + right; right. exists e. repeat split; try done.
      by apply getDataCloudContext_rejected.
Qed.

(** [getDataCloudContext] leaves the objects and the clock alone. *)
Lemma getDataCloudContext_frame (w : World) :
  heap (getDataCloudContext w).2 = heap w
  /\ now (getDataCloudContext w).2 = now w
  /\ prototypes (getDataCloudContext w).2 = prototypes w.
Proof.
  destruct (getDataCloudContext_cases w)
    as [(ctx & _ & ->)|[(ctx & _ & _ & ->)|(e & _ & _ & ->)]]; done.
Qed.

(** What a read finds depends on the objects only. *)
Lemma visibleAt_frame (w1 w : World) (l : loc) :
  heap w1 = heap w -> prototypes w1 = prototypes w ->
  visibleAt w1 l = visibleAt w l.
Proof. intros Hh Hp. unfold visibleAt, prototypeOf. by rewrite Hh, Hp. Qed.

(** *** [executeQuery] *)

(** [executeQuery] always resolves: to the envelope of the outcome of
    getting the context and running the steps.  Besides what
    [getDataCloudContext] does, it only writes to the log. *)
Lemma executeQuery_outcome (q : QueryObject) (fl : loc) (w : World) :
  exists lg,
    executeQuery q (Some fl) w
    = (Normal
         (envelopeOf q fl (now w)
            (c ← (getDataCloudContext w).1; runSteps c q (visibleAt w fl))),
       set_logged lg (getDataCloudContext w).2).
Proof.
  destruct (getDataCloudContext_frame w) as (Hh & Hn & Hp).
  destruct (getDataCloudContext w) as [rc w1] eqn:Hg. cbn [fst snd] in *.
  pose proof (visibleAt_frame w1 w fl Hh Hp) as Hv.
  unfold DataCloudQueryService.executeQuery, orEmptyObject.
  cbv [runSteps resolveQuery queryWith dataCloudApi_query_of visible read lift
       throw logger_info logger_error update Date_toISOString fallbackQueryOf
       fallbackQueryText try_catch mbind M_bind completion_bind mret M_ret
       completion_ret envelopeOf nullContextError].
  rewrite Hg, <- Hv, <- Hn.
  destruct rc as [c|e].
  - destruct (buildQuery q) as [f|].
    + destruct (f (Some (visibleAt w1 fl))) as [query|e];
        [destruct c as [ctx|];
         [destruct (dataCloudApi_query ctx query) as [resp|e];
          [destruct (transform q (default [] (data resp))) as [recs|e]|]|]|];
        try (eexists; reflexivity);
        destruct (f None); eexists; reflexivity.
    + destruct (sql q) as [s|]; [destruct (truthy (VStr s))|];
        [destruct c as [ctx|];
         [destruct (dataCloudApi_query ctx s) as [resp|e];
          [destruct (transform q (default [] (data resp))) as [recs|e]|]|]| |];
        eexists; reflexivity.
  - destruct (buildQuery q) as [f|];
      [destruct (f None)|destruct (sql q) as [s|]; [destruct (truthy (VStr s))|]];
      eexists; reflexivity.
Qed.

(** With a missing [filters] argument the body runs on a new empty
    object. *)
Lemma executeQuery_default (q : QueryObject) (arg : option loc) (w : World) :
  executeQuery q arg w
  = executeQuery q (Some (boundRef arg w)) (boundWorld arg w).
Proof. destruct arg; reflexivity. Qed.

Lemma boundWorld_authState (arg : option loc) (w : World) :
  authState (boundWorld arg w) = authState w
  /\ now (boundWorld arg w) = now w.
Proof. destruct arg; done. Qed.

(** *** [executeRawQuery] *)

Lemma executeRawQuery_outcome (sql : string)
    (transformFn : option (list value -> completion (list value)))
    (w : World) :
  exists lg,
    executeRawQuery sql transformFn w
    = (Normal
         (rawEnvelopeOf sql (now w)
            (c ← (getDataCloudContext w).1; runRawSteps c sql transformFn)),
       set_logged lg (getDataCloudContext w).2).
Proof.
  destruct (getDataCloudContext_frame w) as (Hh & Hn & _).
  destruct (getDataCloudContext w) as [rc w1] eqn:Hg. cbn [fst snd] in *.
  unfold DataCloudQueryService.executeRawQuery.
  cbv [runRawSteps queryWith dataCloudApi_query_of read lift
       throw logger_info logger_error update Date_toISOString
       try_catch mbind M_bind completion_bind mret M_ret
       completion_ret rawEnvelopeOf nullContextError].
  rewrite Hg, <- Hn.
  destruct rc as [[ctx|]|e]; [|eexists; reflexivity..].
  destruct (dataCloudApi_query ctx sql) as [resp|e]; [|eexists; reflexivity].
  destruct transformFn as [f|]; [|eexists; reflexivity].
  destruct (f (default [] (data resp))); eexists; reflexivity.
Qed.

(** *** [executeQueryWithFilters] *)

(** The filters are cleaned into a new object, and [executeQuery] runs
    with that object. *)
Lemma executeQueryWithFilters_unfold (q : QueryObject) (arg : option loc)
    (w : World) :
  executeQueryWithFilters q arg w
  = executeQuery q
      (Some (fresh (dom (heap (boundWorld arg w)))))
      (afterCleaning (boundRef arg w) (boundWorld arg w)).
Proof.
  unfold DataCloudQueryService.executeQueryWithFilters.
  assert (Hb : orEmptyObject arg w = (Normal (boundRef arg w), boundWorld arg w))
    by (destruct arg; reflexivity).
  rewrite (bind_normal _ _ _ _ _ Hb).
  rewrite (bind_normal _ _ _ _ _ (cleanFilters_outcome _ _)).
  reflexivity.
Qed.

(** *** The cache and the number of authorizations *)

Lemma getDataCloudContext_authState (w : World) :
  authState (getDataCloudContext w).2
  = authStep appLinkSdk dcConnectionName (authState w).
Proof.
  unfold authState, authStep. cbn [fst snd].
  destruct (getDataCloudContext_cases w)
    as [(ctx & Hc & ->)|[(ctx & Hc & Hs & ->)|(e & Hc & Hs & ->)]];
    cbn [snd afterAuthorization _dataCloudContext authorizations];
    rewrite Hc; [done|by rewrite Hs..].
Qed.

Lemma authState_set_logged (lg : list (level * string)) (w : World) :
  authState (set_logged lg w) = authState w.
Proof. reflexivity. Qed.

Lemma authState_set_heap (h : gmap loc Filters) (w : World) :
  authState (set_heap h w) = authState w.
Proof. reflexivity. Qed.

Lemma authState_afterCleaning (l : loc) (w : World) :
  authState (afterCleaning l w) = authState w.
Proof. reflexivity. Qed.

Lemma executeQuery_authState (q : QueryObject) (arg : option loc) (w : World) :
  authState (executeQuery q arg w).2
  = authStep appLinkSdk dcConnectionName (authState w).
Proof.
  rewrite executeQuery_default.
  destruct (executeQuery_outcome q (boundRef arg w) (boundWorld arg w))
    as [lg ->].
  cbn [snd]. rewrite authState_set_logged, getDataCloudContext_authState.
  by destruct (boundWorld_authState arg w) as [-> _].
Qed.

(** Every call has the same effect on the cache and on the number of
    authorizations: none when a context is cached, and else one
    authorization, whose context is cached if it resolves. *)
Lemma perform_authState (c : Call) (w : World) :
  authState (perform appLinkSdk dcConnectionName c w)
  = authStep appLinkSdk dcConnectionName (authState w).
Proof.
  destruct c as [|q arg|sql tf|q arg]; cbn [perform].
  - apply getDataCloudContext_authState.
  - apply executeQuery_authState.
  - destruct (executeRawQuery_outcome sql tf w) as [lg ->].
    cbn [snd]. by rewrite authState_set_logged, getDataCloudContext_authState.
  - rewrite executeQueryWithFilters_unfold, executeQuery_authState.
    rewrite authState_afterCleaning.
    by destruct (boundWorld_authState arg w) as [-> _].
Qed.

(** Getting the context looks at the cache and at the number of
    authorizations only. *)
Lemma getDataCloudContext_authState_only (w1 w : World) :
  authState w1 = authState w ->
  (getDataCloudContext w1).1 = (getDataCloudContext w).1.
Proof.
  intros [= Hc1 Ha1].
  destruct (getDataCloudContext_cases w)
    as [(ctx & Hc & ->)|[(ctx & Hc & Hs & ->)|(e & Hc & Hs & ->)]].
  - rewrite (getDataCloudContext_cached w1 ctx); [done|congruence].
  - rewrite (getDataCloudContext_resolved w1 ctx); [done|congruence..].
  - rewrite (getDataCloudContext_rejected w1 e); [done|congruence..].
Qed.

Lemma getDataCloudContext_boundWorld (arg : option loc) (w : World) :
  (getDataCloudContext (boundWorld arg w)).1 = (getDataCloudContext w).1.
Proof.
  apply getDataCloudContext_authState_only. by destruct arg.
Qed.

(** [executeQuery] on any argument: it resolves to the envelope of the
    outcome of getting the context and running the steps. *)
Lemma executeQuery_resolves (q : QueryObject) (arg : option loc) (w : World) :
  exists w',
    executeQuery q arg w
    = (Normal
         (envelopeOf q (boundRef arg w) (now w)
            (c ← (getDataCloudContext w).1;
             runSteps c q (boundContent arg w))),
       w')
    /\ heap w' = heap (boundWorld arg w)
    /\ prototypes w' = prototypes (boundWorld arg w).
Proof.
  rewrite executeQuery_default.
  destruct (executeQuery_outcome q (boundRef arg w) (boundWorld arg w))
    as [lg ->].
  rewrite getDataCloudContext_boundWorld.
  destruct (boundWorld_authState arg w) as [_ ->].
  eexists. split; [reflexivity|].
  cbn [heap prototypes set_logged].
  split; apply getDataCloudContext_frame.
Qed.

(** A failure local to the query is a failure of the steps. *)
Lemma localFailure_runSteps (c : option Context) (q : QueryObject)
    (o : Filters) (e : exn) :
  LocalFailure c q o e <-> runSteps c q o = Throw e.
Proof.
  unfold runSteps. split.
  - intros [H|query H1 H2|query response H1 H2 H3].
    + by rewrite H.
    + rewrite H1. cbn. by rewrite H2.
    + rewrite H1. cbn. rewrite H2. cbn. by rewrite H3.
  - destruct (resolveQuery q o) as [query|e1] eqn:H1; cbn.
    + destruct (queryWith c query) as [response|e2] eqn:H2; cbn.
      * destruct (transform q (default [] (data response))) as [rs|e3] eqn:H3;
          cbn; [discriminate|].
        intros [= ->]. by eapply TransformFails.
      * intros [= ->]. by eapply ExecutionFails.
    + intros [= ->]. by apply ResolutionFails.
Qed.

(** *** Claims about the envelopes *)



(** The same count holds for [executeRawQuery]. *)
Lemma executeRawQuery_counts (sql : string)
    (transformFn : option (list value -> completion (list value)))
    (w w' : World) (records : list value) (md : Metadata) :
  executeRawQuery sql transformFn w = (Normal (Success records md), w') ->
  totalRecords md = length records /\ filters md = None.
Proof.
  intros H. destruct (executeRawQuery_outcome sql transformFn w) as [lg Hq].
  rewrite Hq in H. injection H as Henv _.
  destruct (_ ≫= _) as [rs|e]; cbn in Henv; [|discriminate].
  injection Henv as <- <-. done.
Qed.

(** C8, as amended.  Once the context is there, a failure in resolving
    the query, in running it or in transforming its rows does not make
    [executeQuery] reject: it resolves to the error envelope with the
    message of the error, the filters, and the fallback query.  The
    fallback query is the result of [buildQuery()] when [buildQuery]
    is a function, the text Query build failed when that call throws,
    else [sql] when it is not empty, and [undefined] when there is no
    [sql] or it is empty. *)
Theorem local_failure_becomes_envelope (q : QueryObject) (arg : option loc)
    (w : World) (c : option Context) (e : exn) :
  (getDataCloudContext w).1 = Normal c ->
  LocalFailure c q (boundContent arg w) e ->
  (exists w',
      executeQuery q arg w
      = (Normal
           (Failure "Failed to execute Data Cloud query" (message e)
              (fallbackQueryText q) (Some (boundRef arg w))),
         w'))
  /\ (forall f s,
        buildQuery q = Some f -> f None = Normal s ->
        fallbackQueryText q = Some s)
  /\ (forall f e',
        buildQuery q = Some f -> f None = Throw e' ->
        fallbackQueryText q = Some "Query build failed")
  /\ (forall s,
        buildQuery q = None -> sql q = Some s -> s <> "" ->
        fallbackQueryText q = Some s)
  /\ (buildQuery q = None -> sql q = None \/ sql q = Some "" ->
      fallbackQueryText q = None).
Proof.
  intros Hc Hf. split_and!.
  - destruct (executeQuery_resolves q arg w) as (w' & Hq & _).
    rewrite Hc in Hq. apply localFailure_runSteps in Hf.
    cbn [mbind completion_bind] in Hq. rewrite Hf in Hq.
    exists w'. exact Hq.
  - intros f s Hb Hs. unfold fallbackQueryText. by rewrite Hb, Hs.
  - intros f e' Hb Hs. unfold fallbackQueryText. by rewrite Hb, Hs.
  - intros s Hb Hs Hne. unfold fallbackQueryText. rewrite Hb, Hs. cbn.
    apply String.eqb_neq in Hne. by rewrite Hne.
  - intros Hb [Hs|Hs]; unfold fallbackQueryText; by rewrite Hb, Hs.
Qed.

(** C10. For a query object with neither [sql] nor [buildQuery],
    [executeQuery] resolves to the error envelope whose [query] is
    [undefined], not the text Query build failed: the message is that
    of the missing query when the context was there, and else that of
    the authorization error. *)
Theorem bare_query_object_fallback_undefined (q : QueryObject)
    (arg : option loc) (w : World) :
  buildQuery q = None ->
  sql q = None ->
  exists w',
    executeQuery q arg w
    = (Normal
         (Failure "Failed to execute Data Cloud query"
            (match (getDataCloudContext w).1 with
             | Normal _ => message missingQueryError
             | Throw e => message e
             end)
            None (Some (boundRef arg w))),
       w').
Proof.
  intros Hb Hs. destruct (executeQuery_resolves q arg w) as (w' & Hq & _).
  exists w'. rewrite Hq. do 2 f_equal.
  assert (Hfb : fallbackQueryText q = None)
    by (unfold fallbackQueryText; by rewrite Hb, Hs).
  destruct (getDataCloudContext w).1 as [c|e]; cbn [mbind completion_bind].
  - unfold runSteps, resolveQuery. rewrite Hb, Hs. cbn. by rewrite Hfb.
  - cbn. by rewrite Hfb.
Qed.

(** *** Claims about the authorization *)

Lemma authStep_invariant (st : option Context * nat) :
  authInvariant appLinkSdk dcConnectionName st ->
  authInvariant appLinkSdk dcConnectionName
    (authStep appLinkSdk dcConnectionName st).
Proof.
  destruct st as [[ctx|] n]; unfold authInvariant, authStep; cbn [fst snd];
    [done|].
  intros Hrej.
  destruct (appLinkSdk dcConnectionName n) as [ctx|e] eqn:Hs.
  - split; [by exists n|]. intros i Hi. apply Hrej. lia.
  - intros i Hi. destruct (decide (i = n)) as [->|Hne].
    + by exists e.
    + apply Hrej. lia.
Qed.

Lemma performAll_invariant (calls : list Call) (w : World) :
  authInvariant appLinkSdk dcConnectionName (authState w) ->
  authInvariant appLinkSdk dcConnectionName
    (authState (performAll appLinkSdk dcConnectionName calls w)).
Proof.
  revert w. induction calls as [|c calls IH]; intros w Hw; [done|].
  cbn [performAll foldl]. apply IH. rewrite perform_authState.
  by apply authStep_invariant.
Qed.

Lemma newService_invariant (h : gmap loc Filters) (t : string) :
  authInvariant appLinkSdk dcConnectionName (authState (newService h t)).
Proof. intros i Hi. cbn in Hi. lia. Qed.

(** C2, as amended.  A call made while a context is cached requests
    no authorization and keeps the cache; a call made while nothing is
    cached requests exactly one, and caches its context when it
    resolves, and nothing when it is rejected.  So in every sequence
    of calls on a new instance all authorizations but the last were
    rejected; when the first authorization resolves there is at most
    one, and two executions one after the other request exactly one. *)
Theorem authorization_cached_once_resolved :
  (forall c w ctx,
      _dataCloudContext w = Some ctx ->
      authorizations (perform appLinkSdk dcConnectionName c w)
      = authorizations w
      /\ _dataCloudContext (perform appLinkSdk dcConnectionName c w) = Some ctx
      /\ getDataCloudContext w = (Normal (Some ctx), w))
  /\ (forall c w,
        _dataCloudContext w = None ->
        authorizations (perform appLinkSdk dcConnectionName c w)
        = S (authorizations w)
        /\ _dataCloudContext (perform appLinkSdk dcConnectionName c w)
           = match appLinkSdk dcConnectionName (authorizations w) with
             | Normal ctx => Some ctx
             | Throw _ => None
             end)
  /\ (forall calls h t i,
        S i < authorizations
                (performAll appLinkSdk dcConnectionName calls (newService h t)) ->
        rejected appLinkSdk dcConnectionName i)
  /\ (forall ctx calls h t,
        appLinkSdk dcConnectionName 0 = Normal ctx ->
        authorizations
          (performAll appLinkSdk dcConnectionName calls (newService h t)) <= 1)
  /\ (forall ctx q1 arg1 q2 arg2 h t,
        appLinkSdk dcConnectionName 0 = Normal ctx ->
        authorizations
          (performAll appLinkSdk dcConnectionName
             [ExecuteQuery q1 arg1; ExecuteQuery q2 arg2] (newService h t))
        = 1).
Proof.
  assert (Hall : forall calls h t i,
             S i < authorizations
                     (performAll appLinkSdk dcConnectionName calls
                        (newService h t)) ->
             rejected appLinkSdk dcConnectionName i).
  { intros calls h t i Hi.
    pose proof (performAll_invariant calls _ (newService_invariant h t)) as Hinv.
    unfold authInvariant, authState in Hinv. cbn [fst snd] in Hinv.
    destruct (_dataCloudContext _) as [ctx|].
    - by apply Hinv.
    - apply Hinv. lia. }
  split_and!.
  - intros c w ctx Hc.
    pose proof (perform_authState c w) as Hp.
    unfold authState, authStep in Hp. cbn [fst snd] in Hp. rewrite Hc in Hp.
    injection Hp as Hp1 Hp2. split_and!; [done..|].
    by apply getDataCloudContext_cached.
  - intros c w Hc.
    pose proof (perform_authState c w) as Hp.
    unfold authState, authStep in Hp. cbn [fst snd] in Hp. rewrite Hc in Hp.
    injection Hp as Hp1 Hp2. done.
  - exact Hall.
  - intros ctx calls h t Hs.
    destruct (decide (authorizations
                        (performAll appLinkSdk dcConnectionName calls
                           (newService h t)) <= 1)) as [|Hgt]; [done|].
    destruct (Hall calls h t 0) as [e He]; [lia|]. congruence.
  - intros ctx q1 arg1 q2 arg2 h t Hs. cbn [performAll foldl].
    pose proof (perform_authState (ExecuteQuery q1 arg1) (newService h t)) as H1.
    unfold authState at 2, authStep in H1.
    cbn [fst snd newService _dataCloudContext authorizations] in H1.
    rewrite Hs in H1.
    pose proof (perform_authState (ExecuteQuery q2 arg2)
                  (perform appLinkSdk dcConnectionName (ExecuteQuery q1 arg1)
                     (newService h t))) as H2.
    rewrite H1 in H2. unfold authStep, authState in H2. cbn [fst snd] in H2.
    by injection H2.
Qed.

End Service.

(** ** Concrete runs *)



(** The hypothesis of the last part of the amended C2 at a concrete
    service: the first authorization resolves, and two executions
    request exactly one authorization. *)
Lemma authorization_cached_once_resolved_witness :
  resolvingSdk "dc" 0%nat = Normal exampleContext
  /\ authorizations
       (performAll resolvingSdk "dc" twoExecutions exampleWorld) = 1%nat.
Proof.
  split; [reflexivity|].
  destruct (authorization_cached_once_resolved resolvingSdk "dc")
    as (_ & _ & _ & _ & H).
  apply (H exampleContext). reflexivity.
Defined.

(** C2 as stated fails: with an authorization that is rejected, two
    executions one after the other request two authorizations. *)
Lemma authorization_requested_twice_when_rejected :
  authorizations (performAll rejectingSdk "dc" twoExecutions exampleWorld)
  = 2%nat
  /\ ~ (authorizations (performAll rejectingSdk "dc" twoExecutions exampleWorld)
        <= 1)%nat
  /\ _dataCloudContext (performAll rejectingSdk "dc" twoExecutions exampleWorld)
     = None.
Proof.
  assert (H : authorizations
                (performAll rejectingSdk "dc" twoExecutions exampleWorld)
              = 2%nat) by (by vm_compute).
  split_and!; [done|rewrite H; lia|by vm_compute].
Qed.


(** The hypotheses of the amended C8 at a concrete service: the
    context is there, the query object has an empty [sql], and the
    envelope has no fallback query. *)
Lemma local_failure_becomes_envelope_witness :
  exists w',
    executeQuery resolvingSdk "dc" emptySqlQueryObject (Some 0%nat) exampleWorld
    = (Normal
         (Failure "Failed to execute Data Cloud query"
            (message missingQueryError)
            (fallbackQueryText emptySqlQueryObject) (Some 0%nat)),
       w').
Proof.
  apply (local_failure_becomes_envelope resolvingSdk "dc" emptySqlQueryObject
           (Some 0%nat) exampleWorld (Some exampleContext) missingQueryError).
  - reflexivity.
  - apply ResolutionFails. reflexivity.
Defined.

(** C8 as stated fails on a query object whose [sql] is the empty
    string: as the specification words it the fallback query is
    [sql], the empty string; the envelope has [undefined]. *)
Lemma empty_sql_fallback_is_undefined :
  LocalFailure (Some exampleContext) emptySqlQueryObject
    (boundContent (Some 0%nat) exampleWorld) missingQueryError
  /\ fst (executeQuery resolvingSdk "dc" emptySqlQueryObject
            (Some 0%nat) exampleWorld)
     = Normal
         (Failure "Failed to execute Data Cloud query"
            (message missingQueryError) None (Some 0%nat))
  /\ fallbackAsSpecified emptySqlQueryObject = Some ""
  /\ fst (executeQuery resolvingSdk "dc" emptySqlQueryObject
            (Some 0%nat) exampleWorld)
     <> Normal
          (Failure "Failed to execute Data Cloud query"
             (message missingQueryError)
             (fallbackAsSpecified emptySqlQueryObject) (Some 0%nat)).
Proof.
  split_and!; [by apply ResolutionFails|by vm_compute|reflexivity|].
  intros H. vm_compute in H. discriminate H.
Qed.

(** The hypotheses of C10 at a concrete service. *)
Lemma bare_query_object_fallback_undefined_witness :
  exists w',
    executeQuery resolvingSdk "dc" bareQueryObject (Some 0%nat) exampleWorld
    = (Normal
         (Failure "Failed to execute Data Cloud query"
            (message missingQueryError) None (Some 0%nat)),
       w').
Proof.
  apply (bare_query_object_fallback_undefined resolvingSdk "dc"
           bareQueryObject (Some 0%nat) exampleWorld); reflexivity.
Defined.

(** * Further properties *)

(** ** [escapeSqlString] on strings *)

Lemma count_append (c : ascii) (s t : string) :
  count c (s +:+ t) = count c s + count c t.
Proof.
  induction s as [|a s IH]; [reflexivity|].
  rewrite append_cons. cbn [count]. rewrite IH. lia.
Qed.

Lemma length_append (s t : string) :
  String.length (s +:+ t) = String.length s + String.length t.
Proof.
  induction s as [|a s IH]; [reflexivity|].
  rewrite append_cons. cbn [String.length]. by rewrite IH.
Qed.

(** What a replacement does to the number of occurrences of any
    character: those of the replaced character are gone, and each of
    them brought in the occurrences of the replacing text. *)
Lemma count_replaceAll (c d : ascii) (r s : string) :
  count c (replaceAll d r s)
  = (if Ascii.eqb c d then 0 else count c s) + count d s * count c r.
Proof.
  induction s as [|a s IH]; [by destruct (Ascii.eqb c d)|].
  cbn [replaceAll count].
  destruct (Ascii.eqb_spec a d) as [->|Had];
    [rewrite count_append|cbn [count]]; rewrite IH;
    destruct (Ascii.eqb_spec c d) as [->|Hcd];
    rewrite ?Ascii.eqb_refl; try lia;
    repeat match goal with
      | |- context [Ascii.eqb ?x ?y] => destruct (Ascii.eqb_spec x y); subst
      end; try done; lia.
Qed.

(** What a replacement does to the length. *)
Lemma length_replaceAll (d : ascii) (r s : string) :
  String.length (replaceAll d r s) + count d s
  = String.length s + count d s * String.length r.
Proof.
  induction s as [|a s IH]; [reflexivity|].
  cbn [replaceAll count String.length].
  destruct (Ascii.eqb a d).
  - rewrite length_append. lia.
  - cbn [String.length]. lia.
Qed.

Lemma occurs_count (c : ascii) (s : string) :
  occurs c s = false <-> count c s = 0.
Proof.
  induction s as [|a s IH]; [done|].
  cbn [occurs count]. destruct (Ascii.eqb a c); cbn; [split; [done|lia]|].
  rewrite IH. done.
Qed.

(** The six characters are different, so their occurrences together
    are at most the length of the string. *)
Lemma count_special_le_length (s : string) :
  count quote s + count backslash s + count nul s
  + count lf s + count cr s + count sub s <= String.length s.
Proof.
  induction s as [|a s IH]; [done|].
  cbn [count String.length].
  assert (Hone : (if Ascii.eqb a quote then 1 else 0)
                 + (if Ascii.eqb a backslash then 1 else 0)
                 + (if Ascii.eqb a nul then 1 else 0)
                 + (if Ascii.eqb a lf then 1 else 0)
                 + (if Ascii.eqb a cr then 1 else 0)
                 + (if Ascii.eqb a sub then 1 else 0) <= 1).
  { destruct a as [[] [] [] [] [] [] [] []]; vm_compute; lia. }
  lia.
Qed.

Lemma plain_count (s : string) :
  plain s = true
  <-> count quote s = 0 /\ count backslash s = 0 /\ count nul s = 0
      /\ count lf s = 0 /\ count cr s = 0 /\ count sub s = 0.
Proof.
  induction s as [|a s IH]; [done|].
  cbn [plain count]. unfold special.
  rewrite andb_true_iff, IH.
  destruct (Ascii.eqb a quote), (Ascii.eqb a backslash), (Ascii.eqb a nul),
    (Ascii.eqb a lf), (Ascii.eqb a cr), (Ascii.eqb a sub); cbn;
    (split; [intros [? ?]; first [done|lia] | intros (?&?&?&?&?&?); first [lia|done]]).
Qed.

(** Evaluates the comparisons of two given characters and the counts
    in a given text. *)
Ltac compute_chars :=
  repeat match goal with
    | |- context [Ascii.eqb ?x ?y] =>
        let b := eval vm_compute in (Ascii.eqb x y) in
        change (Ascii.eqb x y) with b
    | |- context [count ?c (String ?a ?r)] =>
        let n := eval vm_compute in (count c (String a r)) in
        change (count c (String a r)) with n
    | |- context [count ?c EmptyString] =>
        change (count c EmptyString) with 0
    | |- context [String.length (String ?a ?r)] =>
        let n := eval vm_compute in (String.length (String a r)) in
        change (String.length (String a r)) with n
    | |- context [String.length EmptyString] =>
        change (String.length EmptyString) with 0
    end;
  cbv iota.

(** The occurrences of the six characters after the six replacements. *)
Lemma count_sixReplacements (s : string) :
  count quote (sixReplacements s) = 2 * count quote s
  /\ count backslash (sixReplacements s)
     = 2 * count backslash s + count lf s + count cr s + count sub s
  /\ count nul (sixReplacements s) = 0
  /\ count lf (sixReplacements s) = 0
  /\ count cr (sixReplacements s) = 0
  /\ count sub (sixReplacements s) = 0.
Proof.
  unfold sixReplacements, str1. rewrite !count_replaceAll.
  compute_chars. lia.
Qed.

Lemma length_sixReplacements (s : string) :
  String.length (sixReplacements s) + count nul s
  = String.length s + count quote s + count backslash s
    + count lf s + count cr s + count sub s.
Proof.
  unfold sixReplacements, str1.
  set (s1 := replaceAll quote _ s).
  set (s2 := replaceAll backslash _ s1).
  set (s3 := replaceAll nul _ s2).
  set (s4 := replaceAll lf _ s3).
  set (s5 := replaceAll cr _ s4).
  pose proof (length_replaceAll sub (String backslash "Z") s5) as H6.
  pose proof (length_replaceAll cr (String backslash "r") s4) as H5.
  pose proof (length_replaceAll lf (String backslash "n") s3) as H4.
  pose proof (length_replaceAll nul "" s2) as H3.
  pose proof (length_replaceAll backslash
                (String backslash (String backslash "")) s1) as H2.
  pose proof (length_replaceAll quote (String quote (String quote "")) s) as H1.
  fold s1 in H1. fold s2 in H2. fold s3 in H3. fold s4 in H4. fold s5 in H5.
  revert H1 H2 H3 H4 H5 H6.
  subst s5 s4 s3 s2 s1. rewrite !count_replaceAll. compute_chars.
  set (l1 := String.length (replaceAll quote _ s)).
  set (l2 := String.length (replaceAll backslash _ _)).
  set (l3 := String.length (replaceAll nul _ _)).
  set (l4 := String.length (replaceAll lf _ _)).
  set (l5 := String.length (replaceAll cr _ _)).
  set (l6 := String.length (replaceAll sub _ _)).
  lia.
Qed.

(** X1. On a string, the result of [escapeSqlString] has no null
    byte, no line feed, no carriage return and no SUB character. *)
Theorem escapeSqlString_no_raw_control (s : string) :
  occurs nul (unifiedB2BQuery.escapeSqlString (VStr s)) = false
  /\ occurs lf (unifiedB2BQuery.escapeSqlString (VStr s)) = false
  /\ occurs cr (unifiedB2BQuery.escapeSqlString (VStr s)) = false
  /\ occurs sub (unifiedB2BQuery.escapeSqlString (VStr s)) = false.
Proof.
  change (unifiedB2BQuery.escapeSqlString (VStr s)) with (sixReplacements s).
  rewrite !occurs_count.
  by destruct (count_sixReplacements s) as (_ & _ & ? & ? & ? & ?).
Qed.

(** X2. On a string, the result of [escapeSqlString] has twice the
    quotes of the input, so an even number of them; its backslashes
    are those of the input twice, and one for each line feed,
    carriage return and SUB of the input. *)
Theorem escapeSqlString_quotes_doubled (s : string) :
  count quote (unifiedB2BQuery.escapeSqlString (VStr s)) = 2 * count quote s
  /\ count backslash (unifiedB2BQuery.escapeSqlString (VStr s))
     = 2 * count backslash s + count lf s + count cr s + count sub s.
Proof.
  change (unifiedB2BQuery.escapeSqlString (VStr s)) with (sixReplacements s).
  by destruct (count_sixReplacements s) as (? & ? & _).
Qed.

(** X3. On a string, the result of [escapeSqlString] is longer than
    the input by one character for each quote, backslash, line feed,
    carriage return and SUB, and shorter by one for each null byte;
    it is never longer than twice the input. *)
Theorem escapeSqlString_length (s : string) :
  String.length (unifiedB2BQuery.escapeSqlString (VStr s)) + count nul s
  = String.length s + count quote s + count backslash s
    + count lf s + count cr s + count sub s
  /\ String.length (unifiedB2BQuery.escapeSqlString (VStr s))
     <= 2 * String.length s.
Proof.
  change (unifiedB2BQuery.escapeSqlString (VStr s)) with (sixReplacements s).
  pose proof (length_sixReplacements s). pose proof (count_special_le_length s).
  lia.
Qed.

(** X4. [escapeSqlString] returns a string as it is exactly when the
    string has none of the six characters it replaces. *)
Theorem escapeSqlString_fixed_iff_plain (s : string) :
  unifiedB2BQuery.escapeSqlString (VStr s) = s <-> plain s = true.
Proof.
  change (unifiedB2BQuery.escapeSqlString (VStr s)) with (sixReplacements s).
  split; [|apply sixReplacements_plain].
  intros Heq. apply plain_count.
  destruct (count_sixReplacements s) as (Hq & Hb & Hn & Hl & Hc & Hs).
  rewrite Heq in Hq, Hb, Hn, Hl, Hc, Hs. lia.
Qed.

(** ** [buildQuery] and the filters *)

(** The conditions depend on the three keys only, and on a key only
    through its truthiness and, when truthy, its value. *)
Lemma conditionsOf_ext (render : value -> string) (f g : Filters) :
  (forall k, k ∈ filterKeys ->
             truthy (prop f k) = truthy (prop g k)
             /\ (truthy (prop g k) = true -> prop f k = prop g k)) ->
  conditionsOf render f = conditionsOf render g.
Proof.
  intros H. unfold conditionsOf. cbn [omap list_omap].
  destruct (H "accountName") as [H1 H1']; [apply list_elem_of_here|].
  destruct (H "accountSource") as [H2 H2'];
    [apply list_elem_of_further, list_elem_of_here|].
  destruct (H "segment") as [H3 H3'];
    [do 2 apply list_elem_of_further; apply list_elem_of_here|].
  rewrite H1, H2, H3.
  destruct (truthy (prop g "accountName")); [rewrite H1' by done|];
    (destruct (truthy (prop g "accountSource")); [rewrite H2' by done|]);
    (destruct (truthy (prop g "segment")); [rewrite H3' by done|]);
    reflexivity.
Qed.

Lemma truthy_present (v : value) : truthy v = true -> present v = true.
Proof. destruct v as [| |b|n|s|?|?]; done. Qed.

Lemma not_present_falsy (v : value) : present v = false -> truthy v = false.
Proof.
  intros H. destruct (truthy v) eqn:Ht; [|done].
  apply truthy_present in Ht. congruence.
Qed.

(** Reading a key of the cleaned content: the value when it is
    present, and [undefined] else. *)
Lemma prop_cleaned (o : Filters) (k : string) :
  prop (cleaned o) k = if present (prop o k) then prop o k else VUndefined.
Proof.
  unfold prop, cleaned.
  destruct (o !! k) as [v|] eqn:Hv.
  - change (default VUndefined (Some v)) with v.
    destruct (present v) eqn:Hp.
    + erewrite (proj2 (map_lookup_filter_Some _ _ _ _)); [done|].
      split; [exact Hv|exact Hp].
    + rewrite (proj2 (map_lookup_filter_None _ _ _)); [done|].
      right. intros v' Hv'. cbn. congruence.
  - rewrite (proj2 (map_lookup_filter_None _ _ _)); [done|]. by left.
Qed.

Lemma conditionsOf_cleaned (render : value -> string) (o : Filters) :
  conditionsOf render (cleaned o) = conditionsOf render o.
Proof.
  apply conditionsOf_ext. intros k _. rewrite prop_cleaned.
  destruct (present (prop o k)) eqn:Hp; [done|].
  apply not_present_falsy in Hp. rewrite Hp. done.
Qed.

(** Reading a key other than [__proto__] of the own properties that
    [cleanFilters] leaves. *)
Lemma prop_cleanedOwn (o : Filters) (k : string) :
  k <> "__proto__" ->
  prop (cleanedOwn o) k = if present (prop o k) then prop o k else VUndefined.
Proof.
  intros Hk. rewrite <- prop_cleaned. unfold prop. f_equal.
  apply option_eq. intros v. rewrite cleanedOwn_lookup. tauto.
Qed.

Lemma filterKeys_not_proto (k : string) : k ∈ filterKeys -> k <> "__proto__".
Proof.
  unfold filterKeys. rewrite !elem_of_cons, elem_of_nil.
  intros [->|[->|[->|[]]]]; done.
Qed.

(** The text of a natural number starts with a digit. *)
Lemma numberToString_nat_head (n : nat) :
  exists c rest,
    numberToString (Z.of_nat n) = String c rest /\ isDigit c = true.
Proof.
  unfold numberToString, NilZero.string_of_int, NilZero.string_of_uint.
  destruct (Z.of_nat n) as [|p|p] eqn:Hn; [by eexists _, _| |lia].
  cbn [Z.to_int]. destruct (Pos.to_uint p); by eexists _, _.
Qed.

(** An array has no property with the name of a filter. *)
Lemma arrayProperties_filterKeys (elems : list value) (k : string) :
  k ∈ filterKeys -> arrayProperties elems !! k = None.
Proof.
  intros Hk. unfold arrayProperties.
  destruct (_ !! k) as [v|] eqn:Hv; [|done]. exfalso.
  apply lookup_insert_Some in Hv as [[<- _]|[_ Hv]].
  - revert Hk. unfold filterKeys. rewrite !elem_of_cons, elem_of_nil.
    intros [?|[?|[?|[]]]]; done.
  - apply elem_of_list_to_map_2 in Hv.
    apply elem_of_lookup_imap in Hv as (i & x & [= -> ->] & _).
    destruct (numberToString_nat_head i) as (c & rest & Heq & Hc).
    rewrite Heq in Hk. revert Hk. unfold filterKeys.
    rewrite !elem_of_cons, elem_of_nil.
    intros [[= -> _]|[[= -> _]|[[= -> _]|[]]]]; discriminate Hc.
Qed.

(** When the input holds no object that is not an array at
    [__proto__], the object [cleanFilters] returns inherits no
    filter. *)
Lemma inherited_cleanedPrototype (o : Filters) (k : string) :
  isRecord (prop o "__proto__") = false -> k ∈ filterKeys ->
  inherited (cleanedPrototype o) !! k = None.
Proof.
  unfold cleanedPrototype, prop. intros Hr Hk.
  destruct (o !! "__proto__") as [v|]; [|done].
  destruct v; try done. by apply arrayProperties_filterKeys.
Qed.

(** What a read finds in the object [cleanFilters] returned. *)
Lemma visibleAt_afterCleaning (l : loc) (w : World) :
  visibleAt (afterCleaning l w) (fresh (dom (heap w)))
  = cleanedOwn (heap w !!! l) ∪ inherited (cleanedPrototype (heap w !!! l)).
Proof.
  unfold visibleAt, afterCleaning, prototypeOf.
  cbn [heap prototypes set_heap set_prototypes].
  by rewrite lookup_total_insert_eq, lookup_insert_eq.
Qed.

(** A read of an object whose prototype is [Object.prototype] or
    [null] finds its own properties. *)
Lemma visibleAt_plainObject (w : World) (l : loc) :
  plainObject w l = true -> visibleAt w l = heap w !!! l.
Proof.
  unfold plainObject, visibleAt. intros H.
  destruct (prototypeOf w l); [| |discriminate H]; cbn [inherited];
    apply (right_id_L ∅ (∪)).
Qed.

(** The conditions of the cleaned object are those of the own
    properties of the input, when the input holds no object that is
    not an array at [__proto__]. *)
Lemma conditionsOf_afterCleaning (render : value -> string) (o : Filters) :
  isRecord (prop o "__proto__") = false ->
  conditionsOf render (cleanedOwn o ∪ inherited (cleanedPrototype o))
  = conditionsOf render o.
Proof.
  intros Hr. apply conditionsOf_ext. intros k Hk.
  assert (Hread : prop (cleanedOwn o ∪ inherited (cleanedPrototype o)) k
                  = prop (cleanedOwn o) k).
  { unfold prop. by rewrite lookup_union_l by by apply inherited_cleanedPrototype. }
  rewrite Hread, prop_cleanedOwn by by apply filterKeys_not_proto.
  destruct (present (prop o k)) eqn:Hp; [done|].
  apply not_present_falsy in Hp. rewrite Hp. done.
Qed.

Lemma buildQuery_afterCleaning (l : loc) (w : World) :
  plainObject w l = true ->
  isRecord (prop (heap w !!! l) "__proto__") = false ->
  unifiedB2BQuery.buildQuery
    (Some (visibleAt (afterCleaning l w) (fresh (dom (heap w)))))
  = unifiedB2BQuery.buildQuery (Some (visibleAt w l)).
Proof.
  intros Hplain Hr.
  rewrite visibleAt_afterCleaning, visibleAt_plainObject by done.
  rewrite !buildQuery_shape. cbn [default from_option id].
  by rewrite conditionsOf_afterCleaning.
Qed.

(** X5. Cleaning a filter object does not change the query that
    [buildQuery] builds from it, when the object has the prototype
    [Object.prototype] or [null] and holds no object that is not an
    array at [__proto__]: the query built from the object
    [cleanFilters] returns is the query built from its input. *)
Theorem buildQuery_after_cleanFilters (l : loc) (w : World) :
  plainObject w l = true ->
  isRecord (prop (heap w !!! l) "__proto__") = false ->
  exists lc w',
    cleanFilters l w = (Normal lc, w')
    /\ unifiedB2BQuery.buildQuery (Some (visibleAt w' lc))
       = unifiedB2BQuery.buildQuery (Some (visibleAt w l))
    /\ SecondCopy.unifiedB2BQuery.buildQuery (Some (visibleAt w' lc))
       = SecondCopy.unifiedB2BQuery.buildQuery (Some (visibleAt w l)).
Proof.
  intros Hplain Hr.
  eexists _, _. split; [apply cleanFilters_outcome|].
  rewrite visibleAt_afterCleaning, visibleAt_plainObject by done.
  rewrite !buildQuery_shape, !buildQuery_second_copy_shape.
  cbn [default from_option id]. by rewrite !conditionsOf_afterCleaning.
Qed.

(** The hypotheses of X5 at a filter object whose [__proto__] holds
    an array: the cleaned object has the array as its prototype, and
    the query is that of the input. *)
Lemma buildQuery_after_cleanFilters_witness :
  plainObject protoArrayWorld 0%nat = true
  /\ isRecord (prop (heap protoArrayWorld !!! 0%nat) "__proto__") = false
  /\ exists lc w',
      cleanFilters 0%nat protoArrayWorld = (Normal lc, w')
      /\ unifiedB2BQuery.buildQuery (Some (visibleAt w' lc))
         = unifiedB2BQuery.buildQuery (Some (visibleAt protoArrayWorld 0%nat)).
Proof.
  split; [reflexivity|]. split; [reflexivity|].
  destruct (buildQuery_after_cleanFilters 0%nat protoArrayWorld)
    as (lc & w' & Hrun & Hq & _); [reflexivity..|].
  exists lc, w'. by split.
Defined.

Lemma conditionsOf_nil (render : value -> string) (f : Filters) :
  conditionsOf render f = []
  <-> truthy (prop f "accountName") = false
      /\ truthy (prop f "accountSource") = false
      /\ truthy (prop f "segment") = false.
Proof.
  unfold conditionsOf. cbn [omap list_omap].
  destruct (truthy (prop f "accountName")),
    (truthy (prop f "accountSource")), (truthy (prop f "segment"));
    split; first [done | intros (?&?&?); done].
Qed.

Lemma append_inj_l (s t1 t2 : string) : s +:+ t1 = s +:+ t2 -> t1 = t2.
Proof.
  induction s as [|a s IH]; [done|].
  rewrite !append_cons. intros [= H]. by apply IH.
Qed.

(** X6. [buildQuery] returns the legacy static query
    [queries.unified.b2b] exactly when none of accountName,
    accountSource and segment is truthy; the bound export
    [buildUnifiedB2BQuery] is the same function. *)
Theorem buildQuery_is_legacy_query_iff (arg : option Filters) :
  buildUnifiedB2BQuery arg = unifiedB2BQuery.buildQuery arg
  /\ (unifiedB2BQuery.buildQuery arg = queries.unified.b2b
      <-> truthy (prop (default ∅ arg) "accountName") = false
          /\ truthy (prop (default ∅ arg) "accountSource") = false
          /\ truthy (prop (default ∅ arg) "segment") = false).
Proof.
  split; [reflexivity|].
  rewrite buildQuery_shape,
    <- (conditionsOf_nil unifiedB2BQuery.escapeSqlString).
  unfold queries.unified.b2b. split.
  - intros H%append_inj_l.
    destruct (conditionsOf _ _) as [|c cs]; [done|].
    unfold whereClause in H. rewrite !append_cons in H. discriminate H.
  - intros ->. reflexivity.
Qed.

(** X7. Assigning to a key other than accountName, accountSource,
    segment and [__proto__] has no effect on the query: after
    [filters[k] = v] the query built from the object is the one built
    before. *)
Theorem buildQuery_ignores_other_keys (l : loc) (k : string) (v : value)
    (w : World) :
  k ∉ filterKeys -> k <> "__proto__" ->
  exists w',
    setProp l k v w = (Normal tt, w')
    /\ unifiedB2BQuery.buildQuery (Some (visibleAt w' l))
       = unifiedB2BQuery.buildQuery (Some (visibleAt w l))
    /\ SecondCopy.unifiedB2BQuery.buildQuery (Some (visibleAt w' l))
       = SecondCopy.unifiedB2BQuery.buildQuery (Some (visibleAt w l)).
Proof.
  intros Hk Hproto. exists (snd (setProp l k v w)). split; [reflexivity|].
  assert (Hvis : visibleAt (snd (setProp l k v w)) l
                 = <[k := v]> (heap w !!! l) ∪ inherited (prototypeOf w l)).
  { unfold setProp, update. cbn [snd]. rewrite assign_other by done.
    unfold visibleAt at 1. rewrite prototypeOf_insert.
    cbn [fst snd heap prototypes set_heap set_prototypes].
    by rewrite lookup_total_insert_eq. }
  rewrite Hvis, !buildQuery_shape, !buildQuery_second_copy_shape.
  cbn [default from_option id].
  assert (Hext : forall render,
             conditionsOf render
               (<[k := v]> (heap w !!! l) ∪ inherited (prototypeOf w l))
             = conditionsOf render (visibleAt w l)).
  { intros render. apply conditionsOf_ext. intros k' Hk'.
    unfold prop, visibleAt.
    rewrite !lookup_union, lookup_insert_ne; [done|]. intros ->. done. }
  by rewrite !Hext.
Qed.

Lemma buildQuery_ignores_other_keys_witness :
  ("region" ∉ filterKeys)
  /\ exists w',
      setProp 0%nat "region" (VStr "EMEA") exampleWorld = (Normal tt, w')
      /\ unifiedB2BQuery.buildQuery (Some (visibleAt w' 0%nat))
         = unifiedB2BQuery.buildQuery (Some (visibleAt exampleWorld 0%nat)).
Proof.
  assert (H : "region" ∉ filterKeys).
  { unfold filterKeys. rewrite !not_elem_of_cons. split_and!; try done.
    apply not_elem_of_nil. }
  split; [exact H|].
  destruct (buildQuery_ignores_other_keys 0%nat "region" (VStr "EMEA")
              exampleWorld H) as (w' & Hrun & Hq & _); [done|].
  exists w'. by split.
Defined.

(** ** [transform] on rows of any shape *)

Lemma b2bRecord_take (row : list value) :
  b2bRecord (take 8 row) = b2bRecord row.
Proof. unfold b2bRecord. by rewrite !lookup_take_lt by lia. Qed.

Lemma engagementRecord_take (row : list value) :
  engagementRecord (take 5 row) = engagementRecord row.
Proof. unfold engagementRecord. by rewrite !lookup_take_lt by lia. Qed.

(** X8. Positions beyond the selected columns are dropped: the
    records of rows are the records of the rows cut to their first 8
    positions (5 for the engagement query); positions that a row does
    not have come out as [undefined], so the empty row gives a record
    of [undefined] fields. *)
Theorem transform_uses_leading_positions (rows : list (list value)) :
  unifiedB2BQuery.transform (VArr <$> rows)
  = unifiedB2BQuery.transform (VArr <$> (take 8 <$> rows))
  /\ userEngagementQuery.transform (VArr <$> rows)
     = userEngagementQuery.transform (VArr <$> (take 5 <$> rows))
  /\ unifiedB2BQuery.transform [VArr []]
     = Normal
         [VObj [("name", VUndefined); ("number", VUndefined);
                ("accountSource", VUndefined); ("accountTypeId", VUndefined);
                ("createdDate", VUndefined); ("lastModifiedDate", VUndefined);
                ("parentAccountId", VUndefined); ("id", VUndefined)]].
Proof.
  assert (Hb : forall rs, unifiedB2BQuery.transform (VArr <$> rs)
                          = Normal (b2bRecord <$> rs)).
  { intros rs. unfold unifiedB2BQuery.transform.
    rewrite (mapM_total _ (fun v => match v with
                                    | VArr row => b2bRecord row
                                    | _ => VUndefined
                                    end)).
    - by rewrite <- list_fmap_compose.
    - intros x [row [-> _]]%list_elem_of_fmap.
      apply b2b_transformRecord_array. }
  assert (He : forall rs, userEngagementQuery.transform (VArr <$> rs)
                          = Normal (engagementRecord <$> rs)).
  { intros rs. unfold userEngagementQuery.transform.
    rewrite (mapM_total _ (fun v => match v with
                                    | VArr row => engagementRecord row
                                    | _ => VUndefined
                                    end)).
    - by rewrite <- list_fmap_compose.
    - intros x [row [-> _]]%list_elem_of_fmap.
      apply engagement_transformRecord_array. }
  split_and!; [| |reflexivity].
  - rewrite !Hb. f_equal. rewrite <- list_fmap_compose.
    apply list_fmap_ext. intros i row _. cbn. by rewrite b2bRecord_take.
  - rewrite !He. f_equal. rewrite <- list_fmap_compose.
    apply list_fmap_ext. intros i row _. cbn. by rewrite engagementRecord_take.
Qed.

Lemma mapM_throws_on (f : value -> completion value) (records : list value)
    (bad : value) :
  (exists e, f bad = Throw e) -> bad ∈ records ->
  exists e, mapM f records = Throw e.
Proof.
  intros Hbad. induction records as [|x records IH]; [by intros ?%elem_of_nil|].
  intros Hin. cbn [mapM].
  destruct (f x) as [y|e] eqn:Hx; [|by exists e].
  cbn [mbind completion_bind].
  apply elem_of_cons in Hin as [->|Hin].
  - destruct Hbad as [e He]. congruence.
  - destruct (IH Hin) as [e ->]. by exists e.
Qed.

(** X9. The transforms give all records or none: when one of the rows
    is [null] or [undefined], whatever the other rows are, the whole
    transform throws and no record is returned. *)
Theorem transform_throws_on_missing_row (records : list value) :
  VNull ∈ records \/ VUndefined ∈ records ->
  (exists e, unifiedB2BQuery.transform records = Throw e)
  /\ (exists e, userEngagementQuery.transform records = Throw e).
Proof.
  intros [H|H]; split;
    (eapply mapM_throws_on; [|exact H]); eexists; reflexivity.
Qed.

Lemma transform_throws_on_missing_row_witness :
  exists e, unifiedB2BQuery.transform [exampleRow; VNull; exampleRow] = Throw e.
Proof.
  apply (transform_throws_on_missing_row [exampleRow; VNull; exampleRow]).
  left. apply list_elem_of_further, list_elem_of_here.
Defined.

(** ** The service, further *)

Section ServiceFurther.

Variable appLinkSdk : AppLinkSdk.
Variable dcConnectionName : string.

Local Abbreviation getDataCloudContext :=
  (getDataCloudContext appLinkSdk dcConnectionName).
Local Abbreviation executeQuery := (executeQuery appLinkSdk dcConnectionName).
Local Abbreviation executeRawQuery :=
  (executeRawQuery appLinkSdk dcConnectionName).
Local Abbreviation executeQueryWithFilters :=
  (executeQueryWithFilters appLinkSdk dcConnectionName).

(** Getting the context does not look at the objects. *)
Lemma getDataCloudContext_afterCleaning (l : loc) (w : World) :
  (getDataCloudContext (afterCleaning l w)).1 = (getDataCloudContext w).1.
Proof. by apply getDataCloudContext_authState_only. Qed.

(** *** [executeRawQuery] *)


(** X11. Without a transformation function, once the context is there
    and the query resolves, [executeRawQuery] returns the rows of the
    response as they are, and no row when the response has no [data];
    with a transformation function it returns what the function
    makes of them. *)
Theorem executeRawQuery_passes_rows (sql : string) (w : World)
    (ctx : Context) (response : Response) :
  (getDataCloudContext w).1 = Normal (Some ctx) ->
  dataCloudApi_query ctx sql = Normal response ->
  (executeRawQuery sql None w).1
  = Normal
      (Success (default [] (data response))
         {| totalRecords := length (default [] (data response));
            query := sql; filters := None; executedAt := now w |})
  /\ forall f records,
      f (default [] (data response)) = Normal records ->
      (executeRawQuery sql (Some f) w).1
      = Normal
          (Success records
             {| totalRecords := length records;
                query := sql; filters := None; executedAt := now w |}).
Proof.
  intros Hc Hq. split.
  - destruct (executeRawQuery_outcome appLinkSdk dcConnectionName
                sql None w) as [lg ->].
    cbn [fst]. rewrite Hc. cbn [mbind completion_bind].
    unfold runRawSteps, queryWith. rewrite Hq. reflexivity.
  - intros f records Hf.
    destruct (executeRawQuery_outcome appLinkSdk dcConnectionName
                sql (Some f) w) as [lg ->].
    cbn [fst]. rewrite Hc. cbn [mbind completion_bind].
    unfold runRawSteps, queryWith. rewrite Hq. cbn [mbind completion_bind].
    rewrite Hf. reflexivity.
Qed.

(** X12. The failures of [executeRawQuery] become its error envelope
    with the message of the error: a rejected authorization, a
    rejected query, and a transformation function that throws. *)
Theorem executeRawQuery_failures (sql : string)
    (transformFn : option (list value -> completion (list value)))
    (w : World) (e : exn) :
  (getDataCloudContext w).1 = Throw e
  \/ (exists ctx,
        (getDataCloudContext w).1 = Normal (Some ctx)
        /\ (dataCloudApi_query ctx sql = Throw e
            \/ exists response f,
                dataCloudApi_query ctx sql = Normal response
                /\ transformFn = Some f
                /\ f (default [] (data response)) = Throw e)) ->
  (executeRawQuery sql transformFn w).1
  = Normal
      (Failure "Failed to execute raw Data Cloud query" (message e)
         (Some sql) None).
Proof.
  intros H.
  destruct (executeRawQuery_outcome appLinkSdk dcConnectionName
              sql transformFn w) as [lg ->].
  cbn [fst].
  destruct H as [->|(ctx & -> & [Hq|(response & f & Hq & -> & Hf)])];
    cbn [mbind completion_bind]; [reflexivity| |];
    unfold runRawSteps, queryWith; rewrite Hq; [reflexivity|].
  cbn [mbind completion_bind]. rewrite Hf. reflexivity.
Qed.

(** *** [executeQuery] and [executeQueryWithFilters] *)








(** Running with the cleaned filters gives the envelope of running
    with the raw ones, but for the [filters], when the query text
    resolved from the cleaned object is that of the raw one. *)
Lemma executeQueryWithFilters_same (q : QueryObject) (arg : option loc)
    (w : World) :
  resolveQuery q
    (visibleAt (afterCleaning (boundRef arg w) (boundWorld arg w))
       (fresh (dom (heap (boundWorld arg w)))))
  = resolveQuery q (boundContent arg w) ->
  sameResolved (executeQueryWithFilters q arg w).1 (executeQuery q arg w).1.
Proof.
  intros Hq. rewrite executeQueryWithFilters_unfold.
  match goal with
  | |- context [executeQuery q (Some ?lc) ?w1] =>
      destruct (executeQuery_resolves appLinkSdk dcConnectionName q
                  (Some lc) w1) as (w1' & -> & _)
  end.
  destruct (executeQuery_resolves appLinkSdk dcConnectionName q arg w)
    as (w' & -> & _).
  cbn [fst]. rewrite getDataCloudContext_afterCleaning.
  rewrite (getDataCloudContext_boundWorld appLinkSdk dcConnectionName).
  unfold boundContent at 1. cbn [boundWorld boundRef].
  change (now (afterCleaning (boundRef arg w) (boundWorld arg w)))
    with (now (boundWorld arg w)).
  destruct (boundWorld_authState arg w) as [_ ->].
  destruct (getDataCloudContext w).1 as [c|e]; cbn [mbind completion_bind];
    [|done].
  unfold runSteps. rewrite Hq.
  destruct (_ ≫= _) as [[query records]|e]; cbn; done.
Qed.

(** X14. For the two query objects of the repository, running a query
    through [executeQueryWithFilters] gives the same records, count,
    query text and time, or the same error, message and fallback
    query, as running it through [executeQuery] with the filters as
    they are: only the [filters] of the envelope differ.  This holds
    for a filters object that has the prototype [Object.prototype] or
    [null] and holds no object that is not an array at [__proto__],
    for the call without filters, and for the engagement query in
    every case. *)
Theorem executeQueryWithFilters_same_as_executeQuery (l : loc) (w : World) :
  plainObject w l = true ->
  isRecord (prop (heap w !!! l) "__proto__") = false ->
  sameResolved
    (executeQueryWithFilters unifiedB2BQueryObject (Some l) w).1
    (executeQuery unifiedB2BQueryObject (Some l) w).1
  /\ sameResolved
       (executeQueryWithFilters unifiedB2BQueryObject None w).1
       (executeQuery unifiedB2BQueryObject None w).1
  /\ (forall arg,
        sameResolved
          (executeQueryWithFilters userEngagementQueryObject arg w).1
          (executeQuery userEngagementQueryObject arg w).1).
Proof.
  intros Hplain Hr. split_and!.
  - apply executeQueryWithFilters_same.
    unfold resolveQuery, boundContent.
    cbn [buildQuery unifiedB2BQueryObject boundWorld boundRef].
    by rewrite buildQuery_afterCleaning.
  - apply executeQueryWithFilters_same.
    unfold resolveQuery, boundContent.
    cbn [buildQuery unifiedB2BQueryObject].
    rewrite buildQuery_afterCleaning; [done| |].
    + unfold plainObject. cbn [boundWorld boundRef].
      by rewrite prototypeOf_insert.
    + cbn [boundWorld boundRef heap set_heap set_prototypes].
      rewrite lookup_total_insert_eq. reflexivity.
  - intros arg. by apply executeQueryWithFilters_same.
Qed.

End ServiceFurther.

(** The hypotheses of X11 at a concrete service. *)
Lemma executeRawQuery_passes_rows_witness :
  (executeRawQuery resolvingSdk "dc" "SELECT 1" None exampleWorld).1
  = Normal
      (Success [exampleRow]
         {| totalRecords := 1; query := "SELECT 1"; filters := None;
            executedAt := now exampleWorld |}).
Proof.
  apply (executeRawQuery_passes_rows resolvingSdk "dc" "SELECT 1" exampleWorld
           exampleContext {| data := Some [exampleRow] |});
    reflexivity.
Defined.

(** The hypothesis of X12 at a concrete service whose query is
    rejected. *)
Lemma executeRawQuery_failures_witness :
  (executeRawQuery failingQuerySdk "dc" "SELECT 1" None exampleWorld).1
  = Normal
      (Failure "Failed to execute raw Data Cloud query" "boom"
         (Some "SELECT 1") None).
Proof.
  apply (executeRawQuery_failures failingQuerySdk "dc" "SELECT 1" None
           exampleWorld (Error "boom")).
  right. exists failingContext. split; [reflexivity|]. left. reflexivity.
Defined.

(** The hypotheses of X14 at a filter object whose [__proto__] holds
    an array. *)
Lemma executeQueryWithFilters_same_as_executeQuery_witness :
  plainObject protoArrayWorld 0%nat = true
  /\ isRecord (prop (heap protoArrayWorld !!! 0%nat) "__proto__") = false
  /\ sameResolved
       (executeQueryWithFilters resolvingSdk "dc" unifiedB2BQueryObject
          (Some 0%nat) protoArrayWorld).1
       (executeQuery resolvingSdk "dc" unifiedB2BQueryObject
          (Some 0%nat) protoArrayWorld).1.
Proof.
  split; [reflexivity|]. split; [reflexivity|].
  apply (executeQueryWithFilters_same_as_executeQuery resolvingSdk "dc"
           0%nat protoArrayWorld); reflexivity.
Defined.

(** ** [cleanFilters], further *)

(** X15. Cleaning is idempotent: cleaning the object that
    [cleanFilters] returned gives another new object with the same
    content.  The cleaned content is part of the content of the
    input. *)
Theorem cleanFilters_idempotent (l : loc) (w : World) :
  exists l1 w1 l2 w2,
    cleanFilters l w = (Normal l1, w1)
    /\ cleanFilters l1 w1 = (Normal l2, w2)
    /\ l2 <> l1
    /\ heap w2 !!! l2 = heap w1 !!! l1
    /\ heap w2 !! l1 = heap w1 !! l1
    /\ heap w1 !!! l1 ⊆ heap w !!! l.
Proof.
  eexists _, _, _, _.
  split; [apply cleanFilters_outcome|].
  split; [apply cleanFilters_outcome|].
  unfold afterCleaning. cbn [heap set_heap set_prototypes].
  set (l1 := fresh (dom (heap w))).
  set (h1 := <[l1 := cleanedOwn (heap w !!! l)]> (heap w)).
  assert (Hne : fresh (dom h1) <> l1).
  { intros Heq. apply (is_fresh (dom h1)). rewrite Heq. subst h1.
    rewrite dom_insert_L. apply elem_of_union_l, elem_of_singleton. done. }
  split_and!; [done| | |].
  - rewrite lookup_total_insert_eq. subst h1.
    rewrite lookup_total_insert_eq. apply cleanedOwn_idemp.
  - by rewrite lookup_insert_ne.
  - subst h1. rewrite lookup_total_insert_eq. apply cleanedOwn_subseteq.
Qed.

(** ** What [executeQuery] logs *)

Section ServiceLog.

Variable appLinkSdk : AppLinkSdk.
Variable dcConnectionName : string.

Local Abbreviation getDataCloudContext :=
  (getDataCloudContext appLinkSdk dcConnectionName).
Local Abbreviation executeQuery := (executeQuery appLinkSdk dcConnectionName).

(** The lines [executeQuery] adds to those of [getDataCloudContext]:
    the query, once it is resolved, and the error, when it fails. *)
Lemma executeQuery_logged (q : QueryObject) (fl : loc) (w : World) :
  logged (executeQuery q (Some fl) w).2
  = (logged (getDataCloudContext w).2
       ++ match (getDataCloudContext w).1 with
          | Normal _ =>
              match resolveQuery q (visibleAt w fl) with
              | Normal query => [executingLine query]
              | Throw _ => []
              end
          | Throw _ => []
          end
       ++ match (executeQuery q (Some fl) w).1 with
          | Normal (Failure _ msg _ _) => [errorLine msg]
          | _ => []
          end)%list.
Proof.
  destruct (getDataCloudContext_frame appLinkSdk dcConnectionName w)
    as (Hh & Hn & Hp).
  destruct (getDataCloudContext w) as [rc w1] eqn:Hg. cbn [fst snd] in *.
  pose proof (visibleAt_frame w1 w fl Hh Hp) as Hv.
  unfold DataCloudQueryService.executeQuery, orEmptyObject.
  cbv [resolveQuery dataCloudApi_query_of visible read lift
       throw logger_info logger_error update Date_toISOString fallbackQueryOf
       try_catch mbind M_bind completion_bind mret M_ret
       completion_ret errorLine executingLine].
  rewrite Hg, <- Hv.
  destruct rc as [c|e].
  - destruct (buildQuery q) as [f|].
    + destruct (f (Some (visibleAt w1 fl))) as [query|e];
        [destruct c as [ctx|];
         [destruct (dataCloudApi_query ctx query) as [resp|e];
          [destruct (transform q (default [] (data resp))) as [recs|e]|]|]|];
        try (destruct (f None));
        cbn [fst snd logged set_logged]; unfold push;
        rewrite <- ?app_assoc, ?app_nil_r; reflexivity.
    + destruct (sql q) as [s|]; [destruct (truthy (VStr s))|];
        [destruct c as [ctx|];
         [destruct (dataCloudApi_query ctx s) as [resp|e];
          [destruct (transform q (default [] (data resp))) as [recs|e]|]|]| |];
        cbn [fst snd logged set_logged]; unfold push;
        rewrite <- ?app_assoc, ?app_nil_r; reflexivity.
  - destruct (buildQuery q) as [f|];
      [destruct (f None)|destruct (sql q) as [s|]; [destruct (truthy (VStr s))|]];
      cbn [fst snd logged set_logged]; unfold push;
      rewrite <- ?app_assoc, ?app_nil_r; reflexivity.
Qed.

(** X16. The log tells the outcome of [executeQuery]: when it returns
    the error envelope, the last line logged is the error line with
    the message of the envelope; when it returns a success envelope,
    the last line logged is the query of the envelope.  Lines are only
    added to the log. *)
Theorem executeQuery_last_logged (q : QueryObject) (arg : option loc)
    (w : World) :
  exists env w',
    executeQuery q arg w = (Normal env, w')
    /\ (exists added, logged w' = (logged w ++ added)%list)
    /\ match env with
       | Failure _ msg _ _ => last (logged w') = Some (errorLine msg)
       | Success _ md => last (logged w') = Some (executingLine (query md))
       end.
Proof.
  rewrite (executeQuery_default appLinkSdk dcConnectionName).
  set (w0 := boundWorld arg w). set (fl := boundRef arg w).
  assert (Hl0 : logged w0 = logged w) by (subst w0; by destruct arg).
  pose proof (executeQuery_logged q fl w0) as Hlog.
  destruct (executeQuery_outcome appLinkSdk dcConnectionName q fl w0)
    as [lg Hq].
  rewrite Hq in Hlog |- *. cbn [fst snd] in Hlog.
  eexists _, _. split; [reflexivity|].
  cbn [logged set_logged] in Hlog |- *. rewrite Hlog. clear Hlog Hq.
  assert (Hpre : exists pre, logged (getDataCloudContext w0).2
                             = (logged w ++ pre)%list).
  { rewrite <- Hl0.
    destruct (getDataCloudContext_cases appLinkSdk dcConnectionName w0)
      as [(ctx & _ & ->)|[(ctx & _ & _ & ->)|(e & _ & _ & ->)]];
      cbn [snd logged afterAuthorization]; unfold push.
    - exists []. by rewrite app_nil_r.
    - by eexists.
    - by eexists. }
  destruct Hpre as [pre ->]. split.
  - eexists. rewrite <- !app_assoc. reflexivity.
  - destruct (getDataCloudContext w0).1 as [c|e]; cbn [mbind completion_bind].
    + unfold runSteps.
      fold fl. unfold boundContent. fold w0 fl.
      destruct (resolveQuery q (visibleAt w0 fl)) as [qt|e];
        cbn [mbind completion_bind].
      * destruct (queryWith c qt) as [resp|e]; cbn [mbind completion_bind];
          [destruct (transform q (default [] (data resp))) as [recs|e]|];
          cbn [mbind completion_bind mret completion_ret envelopeOf query];
          rewrite last_app; reflexivity.
      * cbn [envelopeOf]. rewrite last_app. reflexivity.
    + cbn [envelopeOf]. rewrite last_app. reflexivity.
Qed.

End ServiceLog.

(** ** [buildQueryParams] *)

Lemma foldl_push_segments (params : list (string * value))
    (acc : list string) :
  foldl (fun queryParams '(key, value) =>
           if present value
           then push queryParams
                  (key +:+ "=" +:+ encodeURIComponent (toString value))
           else queryParams)
    acc params
  = (acc ++ (paramSegment <$> filter (fun kv => present kv.2 = true) params))%list.
Proof.
  revert acc. induction params as [|[k v] params IH]; intros acc.
  - cbn. by rewrite app_nil_r.
  - cbn [foldl]. rewrite IH. rewrite filter_cons. cbn [snd].
    destruct (present v) eqn:Hp.
    + rewrite decide_True by done. unfold push. cbn [fmap list_fmap].
      by rewrite <- app_assoc.
    + rewrite decide_False by congruence. done.
Qed.

(** X17. [buildQueryParams] joins with [&] the base parameters, as
    they are and in their order, and then one [key=value] segment,
    with the value percent-encoded, for each parameter whose value is
    not [undefined], [null] or the empty string, in the order of the
    parameters; 0, false and arrays are kept.  Without such a
    parameter the result is the base parameters joined. *)
Theorem buildQueryParams_segments (params : list (string * value))
    (baseParams : option (list string)) :
  buildQueryParams params baseParams
  = join "&"
      (default [] baseParams
         ++ (paramSegment <$> filter (fun kv => present kv.2 = true) params))%list
  /\ buildQueryParams (filter (fun kv => present kv.2 = true) params) baseParams
     = buildQueryParams params baseParams.
Proof.
  unfold buildQueryParams. rewrite !foldl_push_segments. split; [done|].
  by rewrite list_filter_filter_l.
Qed.

Lemma percentEncode_no_separator (a : ascii) :
  count ampersand (percentEncode a) = 0 /\ count equals (percentEncode a) = 0.
Proof. destruct a as [[] [] [] [] [] [] [] []]; by vm_compute. Qed.

Lemma unreserved_not_separator (a : ascii) :
  unreserved a = true ->
  Ascii.eqb a ampersand = false /\ Ascii.eqb a equals = false.
Proof.
  destruct a as [[] [] [] [] [] [] [] []]; intros H; vm_compute in H |- *;
    first [done | discriminate H].
Qed.

(** An encoded value has no [&] and no [=]. *)
Lemma encodeURIComponent_no_separator (s : string) :
  count ampersand (encodeURIComponent s) = 0
  /\ count equals (encodeURIComponent s) = 0.
Proof.
  induction s as [|a s [IHa IHe]]; [done|].
  cbn [encodeURIComponent]. destruct (unreserved a) eqn:Ha.
  - cbn [count]. destruct (unreserved_not_separator a Ha) as [-> ->]. done.
  - rewrite !count_append, IHa, IHe.
    by destruct (percentEncode_no_separator a) as [-> ->].
Qed.

Lemma countIn_app (c : ascii) (l1 l2 : list string) :
  countIn c (l1 ++ l2) = countIn c l1 + countIn c l2.
Proof.
  unfold countIn. induction l1 as [|p l1 IH]; [done|].
  cbn [app foldr]. rewrite IH. lia.
Qed.

(** The occurrences of a character in joined strings: those of the
    strings, and those of the separator between them. *)
Lemma count_join (c : ascii) (sep : string) (parts : list string) :
  count c (join sep parts)
  = countIn c parts + pred (length parts) * count c sep.
Proof.
  induction parts as [|p parts IH]; [done|].
  destruct parts as [|p' parts].
  - cbn. lia.
  - change (join sep (p :: p' :: parts))
      with (p +:+ sep +:+ join sep (p' :: parts)).
    rewrite !count_append, IH. unfold countIn. cbn [foldr length pred]. lia.
Qed.

Lemma countIn_segments (params : list (string * value)) :
  countIn ampersand (paramSegment <$> params)
  = countIn ampersand (fst <$> params)
  /\ countIn equals (paramSegment <$> params)
     = countIn equals (fst <$> params) + length params.
Proof.
  unfold countIn. induction params as [|[k v] params [IHa IHe]]; [done|].
  cbn [fmap list_fmap foldr length]. rewrite IHa, IHe.
  unfold paramSegment. cbn [fst snd]. rewrite !count_append.
  destruct (encodeURIComponent_no_separator (toString v)) as [-> ->].
  compute_chars. lia.
Qed.

(** X18. A value never adds a separator to the query string: the
    [&] of the result are those between the segments and those that
    the base parameters and the keys already had, and its [=] are one
    for each parameter that is kept and those of the base parameters
    and keys. *)
Theorem buildQueryParams_separators (params : list (string * value))
    (baseParams : list string) :
  count ampersand (buildQueryParams params (Some baseParams))
  = countIn ampersand baseParams
    + countIn ampersand (fst <$> filter (fun kv => present kv.2 = true) params)
    + pred (length baseParams
            + length (filter (fun kv => present kv.2 = true) params))
  /\ count equals (buildQueryParams params (Some baseParams))
     = countIn equals baseParams
       + countIn equals (fst <$> filter (fun kv => present kv.2 = true) params)
       + length (filter (fun kv => present kv.2 = true) params).
Proof.
  unfold buildQueryParams. rewrite foldl_push_segments.
  cbn [default from_option id].
  rewrite !count_join, !countIn_app, length_app, length_fmap.
  destruct (countIn_segments (filter (fun kv => present kv.2 = true) params))
    as [-> ->].
  compute_chars. lia.
Qed.

(** The query string of the models lookup with a base parameter: the
    empty and the null parameter are dropped, the value is encoded. *)
Lemma buildQueryParams_models_example :
  buildQueryParams modelsParams (Some ["entityType=DataModelObject"])
  = "entityType=DataModelObject&entityCategory=Profile%20%26%20more".
Proof. reflexivity. Qed.

(** ** The Data Cloud routes *)

Lemma setProp_other (l : loc) (k : string) (v : value) (w : World) :
  k <> "__proto__" ->
  setProp l k v w
  = (Normal tt,
     set_prototypes (<[l := prototypeOf w l]> (prototypes w))
       (set_heap (<[l := <[k := v]> (heap w !!! l)]> (heap w)) w)).
Proof. intros Hk. unfold setProp, update. by rewrite assign_other. Qed.

(** An assignment to a key other than [__proto__] on an object with
    the prototype [Object.prototype]. *)
Lemma setProp_fresh_object (l : loc) (k : string) (v : value) (o : Filters)
    (ps : gmap loc Prototype) (h : gmap loc Filters) (w : World) :
  k <> "__proto__" ->
  setProp l k v
    (set_prototypes (<[l := ObjectPrototype]> ps) (set_heap (<[l := o]> h) w))
  = (Normal tt,
     set_prototypes (<[l := ObjectPrototype]> ps)
       (set_heap (<[l := <[k := v]> o]> h) w)).
Proof.
  intros Hk. rewrite setProp_other by done. rewrite prototypeOf_insert.
  cbn [heap prototypes set_heap set_prototypes].
  by rewrite lookup_total_insert_eq, !insert_insert_eq.
Qed.

Lemma visibleAt_fresh_object (l : loc) (o : Filters)
    (ps : gmap loc Prototype) (h : gmap loc Filters) (w : World) :
  visibleAt
    (set_prototypes (<[l := ObjectPrototype]> ps) (set_heap (<[l := o]> h) w)) l
  = o.
Proof.
  unfold visibleAt. rewrite prototypeOf_insert.
  cbn [heap set_heap set_prototypes inherited].
  rewrite lookup_total_insert_eq. apply (right_id_L ∅ (∪)).
Qed.

Section Routes.

Variable appLinkSdk : AppLinkSdk.
Variable dcConnectionName : string.

(** The unified B2B route always leaves a result: that of its steps.
    It requests one authorization, does not touch the cache of a
    service, and adds at most its own filter object to the heap. *)
Lemma unified_b2b_outcome (requestQuery : Filters) (w : World) :
  exists w',
    routes.unified_b2b appLinkSdk dcConnectionName requestQuery w
    = (Normal
         (b2bRouteResult (fresh (dom (heap w))) (now w)
            (b2bRouteSteps (appLinkSdk dcConnectionName (authorizations w))
               requestQuery)),
       w')
    /\ authorizations w' = S (authorizations w)
    /\ _dataCloudContext w' = _dataCloudContext w
    /\ now w' = now w
    /\ heap w'
       = match appLinkSdk dcConnectionName (authorizations w) with
         | Normal _ =>
             <[fresh (dom (heap w)) := routeFilters requestQuery]> (heap w)
         | Throw _ => heap w
         end.
Proof.
  unfold routes.unified_b2b. cbv zeta.
  cbv [try_catch mbind M_bind mret M_ret getAuthorization newObject
       visible read lift update logger_info logger_error Date_toISOString
       b2bRouteSteps b2bRouteResult completion_bind completion_ret
       routeFilters].
  destruct (appLinkSdk dcConnectionName (authorizations w)) as [ctx|e];
    [|eexists; split; [reflexivity|]; done].
  cbn [heap prototypes set_heap set_prototypes set_authorizations set_logged].
  destruct (truthy (prop requestQuery "accountName")),
    (truthy (prop requestQuery "accountSource")),
    (truthy (prop requestQuery "segment"));
    rewrite ?setProp_fresh_object by done; cbv beta iota;
    rewrite ?setProp_fresh_object by done; cbv beta iota;
    rewrite ?setProp_fresh_object by done; cbv beta iota;
    rewrite visibleAt_fresh_object;
    cbn [heap prototypes set_heap set_prototypes set_authorizations set_logged];
    (match goal with
     | |- context [dataCloudApi_query ctx ?q] =>
         destruct (dataCloudApi_query ctx q) as [resp|e]
     end;
     [destruct (unifiedB2BQuery.transform (default [] (data resp)))
        as [recs|e]|]);
    (eexists; split; [reflexivity|]; done).
Qed.

End Routes.

Section RoutesFurther.

Variable appLinkSdk : AppLinkSdk.
Variable dcConnectionName : string.

(** The engagement route always leaves a result: that of its steps. *)
Lemma engagement_outcome (w : World) :
  exists w',
    routes.engagement appLinkSdk dcConnectionName w
    = (Normal
         (engagementRouteResult (now w)
            (engagementRouteSteps
               (appLinkSdk dcConnectionName (authorizations w)))),
       w')
    /\ authorizations w' = S (authorizations w)
    /\ _dataCloudContext w' = _dataCloudContext w
    /\ now w' = now w
    /\ heap w' = heap w.
Proof.
  unfold routes.engagement. cbv zeta.
  cbv [try_catch mbind M_bind mret M_ret getAuthorization
       read lift update logger_info logger_error Date_toISOString
       engagementRouteSteps engagementRouteResult completion_bind
       completion_ret].
  destruct (appLinkSdk dcConnectionName (authorizations w)) as [ctx|e];
    [|eexists; split; [reflexivity|]; done].
  destruct (dataCloudApi_query ctx userEngagementQuery.sql) as [resp|e];
    [destruct (userEngagementQuery.transform (default [] (data resp)))
       as [recs|e]|];
    eexists; (split; [reflexivity|]); done.
Qed.

(** What the route's filter object holds at one of the three keys. *)
Lemma prop_routeFilters (requestQuery : Filters) (k : string) :
  k ∈ filterKeys ->
  prop (routeFilters requestQuery) k
  = if truthy (prop requestQuery k) then prop requestQuery k else VUndefined.
Proof.
  unfold filterKeys. rewrite !elem_of_cons, elem_of_nil.
  intros [->|[->|[->|[]]]]; unfold routeFilters;
    destruct (truthy (prop requestQuery "accountName")),
      (truthy (prop requestQuery "accountSource")),
      (truthy (prop requestQuery "segment"));
    unfold prop at 1;
    rewrite ?lookup_insert_eq, ?lookup_insert_ne, ?lookup_empty by done;
    reflexivity.
Qed.

Lemma buildQuery_routeFilters (requestQuery : Filters) :
  unifiedB2BQuery.buildQuery (Some (routeFilters requestQuery))
  = unifiedB2BQuery.buildQuery (Some requestQuery).
Proof.
  rewrite !buildQuery_shape. cbn [default from_option id].
  rewrite (conditionsOf_ext _ (routeFilters requestQuery) requestQuery);
    [done|].
  intros k Hk. rewrite prop_routeFilters by done.
  destruct (truthy (prop requestQuery k)) eqn:E;
    (split; [exact E || reflexivity|done]).
Qed.

(** The route's filter object holds nothing but truthy values of the
    request at the three keys. *)
Lemma routeFilters_lookup (requestQuery : Filters) (k : string) (v : value) :
  routeFilters requestQuery !! k = Some v ->
  k ∈ filterKeys /\ truthy v = true /\ requestQuery !! k = Some v.
Proof.
  unfold routeFilters.
  destruct (truthy (prop requestQuery "accountName")) eqn:H1,
    (truthy (prop requestQuery "accountSource")) eqn:H2,
    (truthy (prop requestQuery "segment")) eqn:H3;
    rewrite ?lookup_insert_Some, ?lookup_empty;
    intros H;
    repeat match type of H with
      | _ \/ _ => destruct H as [[<- <-]|[_ H]]
      | _ /\ _ => destruct H as [<- <-]
      end; try discriminate H;
    (split; [unfold filterKeys; rewrite !elem_of_cons; tauto|]);
    (split; [done|]);
    unfold prop in *;
    match goal with
    | |- ?m !! ?key = _ => destruct (m !! key); [done|discriminate]
    end.
Qed.

(** X19. The two Data Cloud routes never throw: they return their
    records with a count that is their number, or send a reply with
    code 500, their own error text, the message of the error and the
    static query (for the unified B2B route the legacy query without
    filters).  Each request asks for one authorization, whatever a
    service instance has cached, and changes no filter object that
    was there. *)
Theorem routes_always_reply (requestQuery : Filters) (w : World) :
  (exists r w',
      routes.unified_b2b appLinkSdk dcConnectionName requestQuery w
      = (Normal r, w')
      /\ authorizations w' = S (authorizations w)
      /\ _dataCloudContext w' = _dataCloudContext w
      /\ (forall l0, l0 ∈ dom (heap w) -> heap w' !! l0 = heap w !! l0)
      /\ match r with
         | Returned records md => totalRecords md = length records
         | Replied code error _ failedQuery =>
             code = 500 /\ error = "Failed to retrieve unified B2B data"
             /\ failedQuery = queries.unified.b2b
         end)
  /\ (exists r w',
        routes.engagement appLinkSdk dcConnectionName w = (Normal r, w')
        /\ authorizations w' = S (authorizations w)
        /\ _dataCloudContext w' = _dataCloudContext w
        /\ heap w' = heap w
        /\ match r with
           | Returned records md =>
               totalRecords md = length records
               /\ query md = queries.engagement.userEngagement
           | Replied code error _ failedQuery =>
               code = 500 /\ error = "Failed to retrieve engagement data"
               /\ failedQuery = queries.engagement.userEngagement
           end).
Proof.
  split.
  - destruct (unified_b2b_outcome appLinkSdk dcConnectionName requestQuery w)
      as (w' & -> & Ha & Hc & _ & Hh).
    eexists _, w'. split; [reflexivity|]. split_and!; [done..| |].
    + intros l0 Hl0. rewrite Hh.
      destruct (appLinkSdk dcConnectionName (authorizations w)); [|done].
      rewrite lookup_insert_ne; [done|]. intros Heq. subst l0.
      by apply (is_fresh (dom (heap w))).
    + destruct (b2bRouteSteps _ _) as [[qt records]|e]; cbn; done.
  - destruct (engagement_outcome w) as (w' & -> & Ha & Hc & _ & Hh).
    eexists _, w'. split; [reflexivity|]. split_and!; [done..|].
    destruct (engagementRouteSteps _) as [records|e]; cbn; done.
Qed.

(** X20. When the unified B2B route returns, the query it ran is the
    query [buildQuery] builds from [request.query] itself: copying
    the truthy parameters into a new filter object first changes
    nothing.  The [filters] of its metadata hold only the truthy
    values of the request at accountName, accountSource and
    segment. *)
Theorem unified_b2b_query_of_request (requestQuery : Filters) (w w' : World)
    (records : list value) (md : Metadata) :
  routes.unified_b2b appLinkSdk dcConnectionName requestQuery w
  = (Normal (Returned records md), w') ->
  query md = unifiedB2BQuery.buildQuery (Some requestQuery)
  /\ exists lf,
      filters md = Some lf
      /\ (lf ∉ dom (heap w))
      /\ heap w' !!! lf = routeFilters requestQuery
      /\ forall k v,
          (heap w' !!! lf) !! k = Some v ->
          k ∈ filterKeys /\ truthy v = true /\ requestQuery !! k = Some v.
Proof.
  intros H.
  destruct (unified_b2b_outcome appLinkSdk dcConnectionName requestQuery w)
    as (w1 & Hrun & _ & _ & _ & Hh).
  rewrite Hrun in H. injection H as Hr <-.
  unfold b2bRouteSteps in Hr.
  destruct (appLinkSdk dcConnectionName (authorizations w)) as [ctx|e];
    [|discriminate Hr].
  cbn [mbind completion_bind] in Hr.
  destruct (dataCloudApi_query ctx _) as [resp|e]; [|discriminate Hr].
  cbn [mbind completion_bind] in Hr.
  destruct (unifiedB2BQuery.transform _) as [recs|e]; [|discriminate Hr].
  cbn in Hr. injection Hr as <- <-. cbn [query filters].
  split; [apply buildQuery_routeFilters|].
  exists (fresh (dom (heap w))).
  rewrite Hh, lookup_total_insert_eq.
  split_and!; [done|apply is_fresh|done|apply routeFilters_lookup].
Qed.

End RoutesFurther.

Section RoutesAndService.

Variable appLinkSdk : AppLinkSdk.
Variable dcConnectionName : string.

(** X21. The routes and the service tell the same.  On an instance
    that holds no context yet, and for a [request.query] that has the
    prototype [Object.prototype] or [null] and holds no object that
    is not an array at [__proto__], [executeQueryWithFilters] of the
    unified B2B query object on [request.query] gives the records,
    count, query and time the unified B2B route returns, or the
    message and fallback query of its 500 reply; and [executeQuery]
    of the engagement query object does so for the engagement
    route. *)
Theorem routes_agree_with_service (l : loc) (w : World) :
  _dataCloudContext w = None ->
  plainObject w l = true ->
  isRecord (prop (heap w !!! l) "__proto__") = false ->
  routeAgrees
    (routes.unified_b2b appLinkSdk dcConnectionName (visibleAt w l) w).1
    (executeQueryWithFilters appLinkSdk dcConnectionName
       unifiedB2BQueryObject (Some l) w).1
  /\ routeAgrees
       (routes.engagement appLinkSdk dcConnectionName w).1
       (executeQuery appLinkSdk dcConnectionName
          userEngagementQueryObject None w).1.
Proof.
  intros Hc Hplain Hr. split.
  - rewrite executeQueryWithFilters_unfold. cbn [boundWorld boundRef].
    match goal with
    | |- context [executeQuery _ _ ?q ?a ?w2] =>
        destruct (executeQuery_resolves appLinkSdk dcConnectionName q a w2)
          as (w' & -> & _)
    end.
    destruct (unified_b2b_outcome appLinkSdk dcConnectionName
                (visibleAt w l) w) as (w1 & -> & _).
    cbn [fst]. rewrite getDataCloudContext_afterCleaning.
    unfold boundContent. cbn [boundWorld boundRef].
    change (now (afterCleaning l w)) with (now w).
    unfold runSteps, resolveQuery. cbn [buildQuery unifiedB2BQueryObject].
    rewrite buildQuery_afterCleaning by done.
    unfold b2bRouteSteps. rewrite buildQuery_routeFilters.
    destruct (appLinkSdk dcConnectionName (authorizations w)) as [ctx|e] eqn:Ha.
    + rewrite (getDataCloudContext_resolved _ _ w ctx Hc Ha).
      cbn [fst mbind completion_bind unifiedB2BQueryObject
           transform queryWith].
      destruct (dataCloudApi_query ctx _) as [resp|e]; [|done].
      cbn [mbind completion_bind].
      destruct (unifiedB2BQuery.transform _) as [recs|e]; done.
    + rewrite (getDataCloudContext_rejected _ _ w e Hc Ha). done.
  - match goal with
    | |- context [executeQuery _ _ ?q ?a ?w2] =>
        destruct (executeQuery_resolves appLinkSdk dcConnectionName q a w2)
          as (w' & -> & _)
    end.
    destruct (engagement_outcome appLinkSdk dcConnectionName w)
      as (w1 & -> & _).
    cbn [fst]. unfold runSteps, engagementRouteSteps.
    assert (Hq : forall o, resolveQuery userEngagementQueryObject o
                           = Normal userEngagementQuery.sql)
      by (intros o; vm_compute; reflexivity).
    rewrite Hq.
    destruct (appLinkSdk dcConnectionName (authorizations w)) as [ctx|e] eqn:Ha.
    + rewrite (getDataCloudContext_resolved _ _ w ctx Hc Ha).
      cbn [fst mbind completion_bind userEngagementQueryObject
           transform queryWith].
      destruct (dataCloudApi_query ctx _) as [resp|e]; [|done].
      cbn [mbind completion_bind].
      destruct (userEngagementQuery.transform _) as [recs|e]; done.
    + rewrite (getDataCloudContext_rejected _ _ w e Hc Ha). done.
Qed.

End RoutesAndService.

Lemma unified_b2b_query_of_request_witness :
  exists records md w',
    routes.unified_b2b resolvingSdk "dc" oreillyFilters exampleWorld
    = (Normal (Returned records md), w')
    /\ query md = unifiedB2BQuery.buildQuery (Some oreillyFilters).
Proof.
  eexists _, _, _. split; [vm_compute; reflexivity|].
  eapply (unified_b2b_query_of_request resolvingSdk "dc" oreillyFilters
            exampleWorld).
  vm_compute. reflexivity.
Defined.

Lemma routes_agree_with_service_witness :
  _dataCloudContext protoArrayWorld = None
  /\ plainObject protoArrayWorld 0%nat = true
  /\ isRecord (prop (heap protoArrayWorld !!! 0%nat) "__proto__") = false
  /\ routeAgrees
       (routes.unified_b2b resolvingSdk "dc" (visibleAt protoArrayWorld 0%nat)
          protoArrayWorld).1
       (executeQueryWithFilters resolvingSdk "dc" unifiedB2BQueryObject
          (Some 0%nat) protoArrayWorld).1.
Proof.
  split_and!; [reflexivity..|].
  apply (routes_agree_with_service resolvingSdk "dc" 0%nat protoArrayWorld);
    reflexivity.
Defined.


(** X22. The metadata URL of the models route is the path followed by
    what [buildQueryParams] gives for entityCategory and entityName
    on the base parameter entityType=DataModelObject, whenever the
    two request parameters are strings or missing. *)
Theorem metadataUrl_is_buildQueryParams (entityCategory entityName : value) :
  queryStringValue entityCategory = true ->
  queryStringValue entityName = true ->
  metadataUrl entityCategory entityName
  = "/api/v1/metadata?"
    +:+ buildQueryParams
          [("entityCategory", entityCategory); ("entityName", entityName)]
          (Some ["entityType=DataModelObject"]).
Proof.
  intros H1 H2. unfold metadataUrl, buildQueryParams.
  cbn [foldl default from_option id].
  assert (Hp : forall v, queryStringValue v = true -> present v = truthy v).
  { intros [| |b|n|s|l|o]; try discriminate; intros _; [reflexivity|].
    unfold present, truthy. by destruct s. }
  rewrite !Hp by done.
  by destruct (truthy entityCategory), (truthy entityName).
Qed.

Lemma metadataUrl_is_buildQueryParams_witness :
  metadataUrl (VStr "Profile & more") VUndefined
  = "/api/v1/metadata?"
    +:+ buildQueryParams
          [("entityCategory", VStr "Profile & more");
           ("entityName", VUndefined)]
          (Some ["entityType=DataModelObject"]).
Proof.
  apply (metadataUrl_is_buildQueryParams (VStr "Profile & more") VUndefined);
    reflexivity.
Defined.
